(** * awsume: acquisition of temporary AWS credentials

    A shallow embedding of [awsumepy/lib/aws.py]: [parse_time],
    [assume_role], [get_session_token] and [get_account_id].

    The Python code runs against four collaborators: the STS client of
    boto3, the credential cache ([lib/cache.py]), the interactive MFA
    prompt ([lib/profile.py]) and the logger / terminal.  Calls to them
    are recorded, in program order, in a trace; their answers, and
    whether boto3 builds a client at all, are taken from a [world]. *)

From stdpp Require Import gmap strings list fin_maps.
From Stdlib Require Import ZArith Lia.

Local Open Scope string_scope.
Local Open Scope Z_scope.

(** ** Python values *)

(** An aware [datetime]: an absolute instant and the UTC offset of the
    time zone it is expressed in.  Instants are integers: the ends of
    Python's calendar (years 1 and 9999), where a change of zone
    overflows, are not represented. *)
Record datetime := Datetime {
  dt_instant : Z;     (* microseconds since 1970-01-01T00:00:00Z *)
  dt_utcoffset : Z    (* seconds east of UTC *)
}.

#[warnings="-register-all"]
Inductive pyval :=
| VNone
| VStr (s : string)
| VInt (n : Z)
| VDatetime (d : datetime)
| VDict (d : gmap string pyval).

Abbreviation dict := (gmap string pyval).

(** [bool(v)] *)
Definition truthy (v : pyval) : bool :=
  match v with
  | VNone => false
  | VStr s => negb (String.eqb s "")
  | VInt n => negb (Z.eqb n 0)
  | VDatetime _ => true
  | VDict d => negb (bool_decide (d = ∅))
  end.

(** [type(v).__name__] *)
Definition type_name (v : pyval) : string :=
  match v with
  | VNone => "NoneType"
  | VStr _ => "str"
  | VInt _ => "int"
  | VDatetime _ => "datetime.datetime"
  | VDict _ => "dict"
  end.

(** Arguments annotated [str = None] and [int = None]. *)
Definition of_str (o : option string) : pyval :=
  match o with Some s => VStr s | None => VNone end.

Definition of_int (o : option Z) : pyval :=
  match o with Some n => VInt n | None => VNone end.

(** [d.get(key)] and [d.get(key, default)] on a [dict]. *)
Definition dict_get (d : dict) (key : string) : pyval :=
  default VNone (d !! key).

Definition dict_get_default (d : dict) (key : string) (dflt : pyval) : pyval :=
  default dflt (d !! key).

(** ** Exceptions *)

Inductive exn_class :=
| TypeError
| KeyError
| AttributeError
| RoleAuthenticationError
| UserAuthenticationError
| LibraryError (name : string)   (* any other subclass of Exception *)
| KeyboardInterrupt              (* BaseException, not Exception *)
| SystemExit.                    (* BaseException, not Exception *)

Record exn := Exn { exn_class_of : exn_class; exn_str : string }.

(** [isinstance(e, Exception)] *)
Definition is_Exception (e : exn) : bool :=
  match exn_class_of e with
  | KeyboardInterrupt | SystemExit => false
  | _ => true
  end.

Definition squote (s : string) : string := "'" ++ s ++ "'".
Definition dquote (s : string) : string :=
  String (Ascii.ascii_of_nat 34) (s ++ String (Ascii.ascii_of_nat 34) "").

(** ** Collaborators *)

(** [boto3.session.Session(...).client('sts')] *)
Record sts_client := StsClient {
  aws_access_key_id : pyval;
  aws_secret_access_key : pyval;
  aws_session_token : pyval;
  region_name : pyval
}.

Inductive event :=
| EvLog (message : string)                           (* logger.debug *)
| EvPrint (message : string)                         (* safe_print *)
| EvPrompt                                           (* profile_lib.get_mfa_token *)
| EvCacheRead (cache_file_name : string)             (* cache_lib.read_aws_cache *)
| EvCacheWrite (cache_file_name : string) (session : pyval)
| EvAssumeRole (client : sts_client) (kwargs : dict)
| EvGetSessionToken (client : sts_client) (kwargs : dict)
| EvGetCallerIdentity (client : sts_client).

(** One cache file on disk. *)
Inductive cache_file :=
| Serialized (session : dict)
| Corrupt.

Record state := State {
  cache : gmap string cache_file;
  trace : list event
}.

Record world := World {
  now : Z;                (* the current instant, in microseconds *)
  tzlocal : Z -> Z;       (* dateutil.tz.tzlocal(): offset in force at an instant *)
  strftime_answer : string -> datetime -> string;
                          (* strftime of the platform, for a format *)
  client_error : sts_client -> option exn;
                          (* what boto3 raises instead of building this client *)
  get_mfa_token_answer : exn + string;
  assume_role_answer : sts_client -> dict -> exn + pyval;
  get_session_token_answer : sts_client -> dict -> exn + pyval;
  get_caller_identity_answer : sts_client -> exn + pyval;
  disk_write_fails : string -> bool
}.

(** ** Python computations

    An expression of the interpreter either has a value or raises
    ([result]); a statement that talks to a collaborator also reads and
    changes the [state] ([py]). *)

Inductive result (A : Type) :=
| Ok (a : A)
| Raised (e : exn).
Arguments Ok {A} a.
Arguments Raised {A} e.

Definition py (A : Type) : Type := state -> result A * state.

Definition ret {A} (a : A) : py A := fun st => (Ok a, st).

Definition raise {A} (e : exn) : py A := fun st => (Raised e, st).

Definition bind {A B} (m : py A) (k : A -> py B) : py B :=
  fun st =>
    match m st with
    | (Ok a, st') => k a st'
    | (Raised e, st') => (Raised e, st')
    end.

(** The value of an expression, inside a computation. *)
Definition eval {A B} (r : result A) (k : A -> py B) : py B :=
  match r with
  | Ok a => k a
  | Raised e => raise e
  end.

Notation "'let!' x ':=' m 'in' k" := (bind m (fun x => k))
  (at level 10, x name, m at level 100, k at level 200,
   format "'[v' 'let!'  x  ':='  m  'in' '/' k ']'").
Notation "'do!' m 'in' k" := (bind m (fun _ => k))
  (at level 10, m at level 100, k at level 200,
   format "'[v' 'do!'  m  'in' '/' k ']'").
Notation "'let?' x ':=' r 'in' k" := (eval r (fun x => k))
  (at level 10, x name, r at level 100, k at level 200,
   format "'[v' 'let?'  x  ':='  r  'in' '/' k ']'").

(** [try: body  except Exception as e: handler(e)] *)
Definition try_except_Exception {A} (body : py A) (handler : exn -> py A) : py A :=
  fun st =>
    match body st with
    | (Ok a, st') => (Ok a, st')
    | (Raised e, st') =>
        if is_Exception e then handler e st' else (Raised e, st')
    end.

(** [try: body  except: handler] *)
Definition try_except {A} (body : py A) (handler : py A) : py A :=
  fun st =>
    match body st with
    | (Ok a, st') => (Ok a, st')
    | (Raised _, st') => handler st'
    end.

Definition emit (ev : event) : py unit :=
  fun st => (Ok tt, State (cache st) (trace st ++ [ev])%list).

Definition get_cache : py (gmap string cache_file) :=
  fun st => (Ok (cache st), st).

Definition put_cache (c : gmap string cache_file) : py unit :=
  fun st => (Ok tt, State c (trace st)).

Definition answer {A} (a : exn + A) : py A :=
  match a with
  | inl e => raise e
  | inr v => ret v
  end.

(** ** Operations of the interpreter *)

(** [v[key]] *)
Definition getitem (v : pyval) (key : string) : result pyval :=
  match v with
  | VDict d =>
      match d !! key with
      | Some x => Ok x
      | None => Raised (Exn KeyError (squote key))
      end
  | VStr _ => Raised (Exn TypeError "string indices must be integers, not 'str'")
  | _ => Raised (Exn TypeError (squote (type_name v) ++ " object is not subscriptable"))
  end.

(** [v[key] = x]; the updated object is the value. *)
Definition setitem (v : pyval) (key : string) (x : pyval) : result pyval :=
  match v with
  | VDict d => Ok (VDict (<[key := x]> d))
  | _ => Raised (Exn TypeError
                   (squote (type_name v) ++ " object does not support item assignment"))
  end.

Definition no_attribute {A} (v : pyval) (attr : string) : result A :=
  Raised (Exn AttributeError
            (squote (type_name v) ++ " object has no attribute " ++ squote attr)).

(** [v.get(key, default)]; [v.get(key)] is [v.get(key, None)]. *)
Definition get_method (v : pyval) (key : string) (dflt : pyval) : result pyval :=
  match v with
  | VDict d => Ok (dict_get_default d key dflt)
  | _ => no_attribute v "get"
  end.

(** ['prefix' + v] *)
Definition str_add (prefix : string) (v : pyval) : result string :=
  match v with
  | VStr s => Ok (prefix ++ s)
  | _ => Raised (Exn TypeError
                   ("can only concatenate str (not " ++ dquote (type_name v) ++ ") to str"))
  end.

(** ** [datetime] *)

(** Civil date (year, month, day) of a day number counted from
    1970-01-01, in the proleptic Gregorian calendar. *)
Definition civil_from_days (days : Z) : Z * Z * Z :=
  let z := days + 719468 in
  let era := z / 146097 in
  let doe := z - era * 146097 in
  let yoe := (doe - doe / 1460 + doe / 36524 - doe / 146096) / 365 in
  let doy := doe - (365 * yoe + yoe / 4 - yoe / 100) in
  let mp := (5 * doy + 2) / 153 in
  let d := doy - (153 * mp + 2) / 5 + 1 in
  let m := if mp <? 10 then mp + 3 else mp - 9 in
  let y := yoe + era * 400 in
  (if m <=? 2 then y + 1 else y, m, d).

Definition digit (n : Z) : string :=
  String (Ascii.ascii_of_N (48 + Z.to_N (n mod 10))) "".

Definition pad2 (n : Z) : string := digit (n / 10) ++ digit n.

Definition pad4 (n : Z) : string := pad2 (n / 100) ++ pad2 n.

(** The date and time of [d] in its own zone, as
    [YYYY-MM-DD HH:MM:SS] with every field padded: what a platform
    whose [strftime] pads the year gives for ['%Y-%m-%d %H:%M:%S'].
    The sample worlds run on such a platform. *)
Definition strftime_YmdHMS (d : datetime) : string :=
  let secs := dt_instant d / 1000000 + dt_utcoffset d in
  let '(y, m, dd) := civil_from_days (secs / 86400) in
  let sod := secs mod 86400 in
  pad4 y ++ "-" ++ pad2 m ++ "-" ++ pad2 dd ++ " " ++
  pad2 (sod / 3600) ++ ":" ++ pad2 (sod / 60 mod 60) ++ ":" ++ pad2 (sod mod 60).

(** [colorama.Fore.GREEN] *)
Definition Fore_GREEN : string := String (Ascii.ascii_of_nat 27) "[32m".

Definition cache_prefix : string := "aws-credentials-".

(** The format of [parse_time]. *)
Definition time_format : string := "%Y-%m-%d %H:%M:%S".

(** Calls to the remote identity service found in a trace. *)
Definition is_remote_call (ev : event) : bool :=
  match ev with
  | EvAssumeRole _ _ | EvGetSessionToken _ _ | EvGetCallerIdentity _ => true
  | _ => false
  end.

Definition is_prompt (ev : event) : bool :=
  match ev with EvPrompt => true | _ => false end.

Definition is_cache_read (ev : event) : bool :=
  match ev with EvCacheRead _ => true | _ => false end.

Definition remote_calls (tr : list event) : nat :=
  length (List.filter is_remote_call tr).
Definition prompts (tr : list event) : nat :=
  length (List.filter is_prompt tr).
Definition cache_reads (tr : list event) : nat :=
  length (List.filter is_cache_read tr).

(** ** Collaborators of [aws.py] *)

(** Modelled from the spec: [lib/logger.py] and [lib/safe_print.py] are
    not among the sources; they are collaborators exposing
    [log(level, message)] and [print(message)].  [logger.debug(message)]
    and [safe_print(message)] leave their message in the trace. *)
Definition logger_debug (message : string) : py unit := emit (EvLog message).
Definition safe_print (message : string) : py unit := emit (EvPrint message).

(** [a or b], where [b] is only evaluated when [a] is falsy. *)
Definition py_or (a : pyval) (b : py pyval) : py pyval :=
  if truthy a then ret a else b.

Module profile_lib.

(** Modelled from the spec: [lib/profile.py] is not among the sources;
    the interactive prompt is a collaborator that returns a string.
    One call is one prompt, answered by the world (or interrupted). *)
Definition get_mfa_token (w : world) : py pyval :=
  do! emit EvPrompt in
  let! token := answer (get_mfa_token_answer w) in
  ret (VStr token).

End profile_lib.

Module cache_lib.

(** Modelled from the spec: [lib/cache.py] is not among the sources.
    Read returns the record stored under the key and is absent (here
    [None]) when no record exists or the record is malformed; it never
    raises. *)
Definition read_aws_cache (cache_file_name : string) : py pyval :=
  do! emit (EvCacheRead cache_file_name) in
  let! files := get_cache in
  match files !! cache_file_name with
  | Some (Serialized session) => ret (VDict session)
  | Some Corrupt | None => ret VNone
  end.

Definition populated (session : dict) (field : string) : bool :=
  match session !! field with
  | Some v => truthy v
  | None => false
  end.

(** Modelled from the spec: [lib/cache.py] is not among the sources.
    IsValid is true iff the record is non-absent, has all required
    fields populated and its Expiration is strictly after the current
    instant. *)
Definition valid_cache_session (w : world) (session : pyval) : bool :=
  match session with
  | VDict d =>
      populated d "AccessKeyId" && populated d "SecretAccessKey" &&
      populated d "SessionToken" &&
      match d !! "Expiration" with
      | Some (VDatetime expiration) => now w <? dt_instant expiration
      | _ => false
      end
  | _ => false
  end.

(** Modelled from the spec: [lib/cache.py] is not among the sources.
    Write persists the record, overwriting any prior record under the
    same key; when the underlying storage write fails it logs and
    continues. *)
Definition write_aws_cache (w : world) (cache_file_name : string) (session : pyval)
  : py unit :=
  do! emit (EvCacheWrite cache_file_name session) in
  match session with
  | VDict d =>
      if disk_write_fails w cache_file_name
      then logger_debug "There was an error writing to the cache file"
      else
        let! files := get_cache in
        put_cache (<[cache_file_name := Serialized d]> files)
  | _ => logger_debug "There was an error writing to the cache file"
  end.

End cache_lib.

(** ** [aws.py] *)

(** The configuration a client is asked for: the three credentials of
    a [dict] ([None] for those it lacks) and a region. *)
Definition client_config (credentials : dict) (region : pyval) : sts_client :=
  StsClient (dict_get credentials "AccessKeyId")
            (dict_get credentials "SecretAccessKey")
            (dict_get credentials "SessionToken")
            region.

Section aws.

Variable w : world.

(** [v.astimezone(dateutil.tz.tzlocal())]: the same instant, expressed
    in the local time zone.  (Python raises [OverflowError] when the
    local time leaves the years 1 to 9999; [datetime] holds no instant
    that close to the ends of the calendar.) *)
Definition astimezone_tzlocal (v : pyval) : result pyval :=
  match v with
  | VDatetime d =>
      Ok (VDatetime (Datetime (dt_instant d) (tzlocal w (dt_instant d))))
  | _ => no_attribute v "astimezone"
  end.

(** [v.strftime(format)]: the text is the platform's. *)
Definition strftime (v : pyval) (format : string) : result string :=
  match v with
  | VDatetime d => Ok (strftime_answer w format d)
  | _ => no_attribute v "strftime"
  end.

Definition parse_time (date_time : pyval) : result string :=
  match astimezone_tzlocal date_time with
  | Ok local => strftime local time_format
  | Raised e => Raised e
  end.

(** [boto3.session.Session(aws_access_key_id=..., aws_secret_access_key=...,
    aws_session_token=..., region_name=...).client('sts')], for the
    credentials of a [dict].  Building the client talks to nobody, but
    boto3 may raise instead of building it (a region it does not
    accept, a broken configuration). *)
Definition boto3_sts_client (credentials : dict) (region : pyval) : result sts_client :=
  let client := client_config credentials region in
  match client_error w client with
  | Some e => Raised e
  | None => Ok client
  end.

(** The three operations of the client; each is one call to the remote
    identity service. *)
Definition client_assume_role (client : sts_client) (kwargs : dict) : py pyval :=
  do! emit (EvAssumeRole client kwargs) in
  answer (assume_role_answer w client kwargs).

Definition client_get_session_token (client : sts_client) (kwargs : dict) : py pyval :=
  do! emit (EvGetSessionToken client kwargs) in
  answer (get_session_token_answer w client kwargs).

Definition client_get_caller_identity (client : sts_client) : py pyval :=
  do! emit (EvGetCallerIdentity client) in
  answer (get_caller_identity_answer w client).

(** The body of the [try] of [assume_role]. *)
Definition assume_role_try (role_sts_client : sts_client)
  (role_arn session_name region : string)
  (external_id : option string) (role_duration : option Z)
  (mfa_serial mfa_token : option string) : py pyval :=
  let kwargs : dict :=
    <["RoleArn" := VStr role_arn]> (<["RoleSessionName" := VStr session_name]> ∅) in
  let kwargs :=
    if truthy (of_str external_id)
    then <["ExternalId" := of_str external_id]> kwargs else kwargs in
  let kwargs :=
    if truthy (of_int role_duration)
    then <["DurationSeconds" := of_int role_duration]> kwargs else kwargs in
  let! kwargs :=
    if truthy (of_str mfa_serial)
    then
      let kwargs := <["SerialNumber" := of_str mfa_serial]> kwargs in
      let! token := py_or (of_str mfa_token) (profile_lib.get_mfa_token w) in
      ret (<["TokenCode" := token]> kwargs)
    else ret kwargs in
  let! response := client_assume_role role_sts_client kwargs in
  let? role_session := get_method response "Credentials" VNone in
  let? expiration := getitem role_session "Expiration" in
  let? expiration := astimezone_tzlocal expiration in
  let? role_session := setitem role_session "Expiration" expiration in
  let? role_session := setitem role_session "Region" (VStr region) in
  ret role_session.

(** [region] defaults to ['us-east-1'], the other optional arguments to
    [None]. *)
Definition assume_role (source_credentials : dict)
  (role_arn session_name region : string)
  (external_id : option string) (role_duration : option Z)
  (mfa_serial mfa_token : option string) : py pyval :=
  do! logger_debug ("Assuming role: " ++ role_arn) in
  do! logger_debug ("Session name: " ++ session_name) in
  let? role_sts_client := boto3_sts_client source_credentials (VStr region) in
  let! role_session :=
    try_except_Exception
      (assume_role_try role_sts_client role_arn session_name region
         external_id role_duration mfa_serial mfa_token)
      (fun e => raise (Exn RoleAuthenticationError (exn_str e))) in
  do! logger_debug "Role credentials received" in
  let? expiration := getitem role_session "Expiration" in
  let? expires := parse_time expiration in
  do! safe_print (Fore_GREEN ++ "Role credentials will expire " ++ expires) in
  ret role_session.

(** The body of the [try] of [get_session_token]. *)
Definition get_session_token_try (user_sts_client : sts_client) (region : string)
  (mfa_serial mfa_token : option string) : py pyval :=
  let serial_number :=
    if truthy (of_str mfa_serial) then of_str mfa_serial else VNone in
  let! token_code :=
    if negb (truthy (of_str mfa_serial)) then ret VNone
    else py_or (of_str mfa_token) (profile_lib.get_mfa_token w) in
  let kwargs : dict :=
    <["TokenCode" := token_code]> (<["SerialNumber" := serial_number]> ∅) in
  let! response := client_get_session_token user_sts_client kwargs in
  let? user_session := get_method response "Credentials" VNone in
  let? expiration := getitem user_session "Expiration" in
  let? expiration := astimezone_tzlocal expiration in
  let? user_session := setitem user_session "Expiration" expiration in
  let? user_session := setitem user_session "Region" (VStr region) in
  ret user_session.

(** [region] defaults to ['us-east-1'], [mfa_serial] and [mfa_token] to
    [None], [ignore_cache] to [False]. *)
Definition get_session_token (source_credentials : dict) (region : string)
  (mfa_serial mfa_token : option string) (ignore_cache : bool) : py pyval :=
  let? cache_file_name :=
    str_add cache_prefix (dict_get source_credentials "AccessKeyId") in
  let! cache_session := cache_lib.read_aws_cache cache_file_name in
  if cache_lib.valid_cache_session w cache_session && negb ignore_cache
  then
    do! logger_debug "Using cache session" in
    let? expiration := getitem cache_session "Expiration" in
    let? expires := parse_time expiration in
    do! safe_print (Fore_GREEN ++ "Session token will expire at " ++ expires) in
    ret cache_session
  else
    do! logger_debug "Getting session token" in
    let? user_sts_client := boto3_sts_client source_credentials (VStr region) in
    let! user_session :=
      try_except_Exception
        (get_session_token_try user_sts_client region mfa_serial mfa_token)
        (fun e => raise (Exn UserAuthenticationError (exn_str e))) in
    do! logger_debug "Session token received" in
    do! cache_lib.write_aws_cache w cache_file_name user_session in
    let? shown := get_method user_session "Expiration" VNone in
    do! (if truthy shown
         then
           let? expiration := getitem user_session "Expiration" in
           let? expires := parse_time expiration in
           safe_print (Fore_GREEN ++ "Session token will expire at " ++ expires)
         else ret tt) in
    ret user_session.

Definition get_account_id (credentials : dict) : py pyval :=
  try_except
    (let? sts_client :=
       boto3_sts_client credentials
         (dict_get_default credentials "Region" (VStr "us-east-1")) in
     let! response := client_get_caller_identity sts_client in
     let? account := get_method response "Account" (VStr "Unavailable") in
     ret account)
    (ret (VStr "Unavailable")).

End aws.

(** A run from a given cache, with an empty trace. *)
Definition run {A} (m : py A) (files : gmap string cache_file) : result A * state :=
  m (State files []).

(** ** Vocabulary of the statements *)

(** The credentials of a response of the documented shape: a dict whose
    ['Credentials'] is a dict whose ['Expiration'] is a datetime. *)
Definition credentials_of (response : pyval) : option (dict * datetime) :=
  match response with
  | VDict r =>
      match r !! "Credentials" with
      | Some (VDict creds) =>
          match creds !! "Expiration" with
          | Some (VDatetime expiration) => Some (creds, expiration)
          | _ => None
          end
      | _ => None
      end
  | _ => None
  end.

(** The same instant in the local time zone. *)
Definition to_local (w : world) (d : datetime) : datetime :=
  Datetime (dt_instant d) (tzlocal w (dt_instant d)).

(** Credentials with the expiration made local and the region set. *)
Definition localized (w : world) (region : string) (creds : dict) (expiration : datetime)
  : dict :=
  <["Region" := VStr region]>
    (<["Expiration" := VDatetime (to_local w expiration)]> creds).

(** How the token code of a call is obtained: the events it takes and
    the token, if any is needed. *)
Inductive mfa_outcome (w : world) (mfa_serial mfa_token : option string)
  : list event -> result (option pyval) -> Prop :=
| mfa_not_required :
    truthy (of_str mfa_serial) = false ->
    mfa_outcome w mfa_serial mfa_token [] (Ok None)
| mfa_token_supplied :
    truthy (of_str mfa_serial) = true ->
    truthy (of_str mfa_token) = true ->
    mfa_outcome w mfa_serial mfa_token [] (Ok (Some (of_str mfa_token)))
| mfa_token_prompted token :
    truthy (of_str mfa_serial) = true ->
    truthy (of_str mfa_token) = false ->
    get_mfa_token_answer w = inr token ->
    mfa_outcome w mfa_serial mfa_token [EvPrompt] (Ok (Some (VStr token)))
| mfa_prompt_failed e :
    truthy (of_str mfa_serial) = true ->
    truthy (of_str mfa_token) = false ->
    get_mfa_token_answer w = inl e ->
    mfa_outcome w mfa_serial mfa_token [EvPrompt] (Raised e).

(** What the body of a [try] makes of the answer of the service. *)
Inductive session_outcome (w : world) (region : string)
  : exn + pyval -> result pyval -> Prop :=
| remote_failed e :
    session_outcome w region (inl e) (Raised e)
| response_accepted response creds expiration :
    credentials_of response = Some (creds, expiration) ->
    session_outcome w region (inr response)
      (Ok (VDict (localized w region creds expiration)))
| response_malformed response e :
    credentials_of response = None ->
    is_Exception e = true ->
    session_outcome w region (inr response) (Raised e).

(** The keyword arguments [assume_role] passes, for a resolved token. *)
Definition assume_role_kwargs (role_arn session_name : string)
  (external_id : option string) (role_duration : option Z)
  (mfa_serial : option string) (token : option pyval) : dict :=
  let kwargs : dict :=
    <["RoleArn" := VStr role_arn]> (<["RoleSessionName" := VStr session_name]> ∅) in
  let kwargs :=
    if truthy (of_str external_id)
    then <["ExternalId" := of_str external_id]> kwargs else kwargs in
  let kwargs :=
    if truthy (of_int role_duration)
    then <["DurationSeconds" := of_int role_duration]> kwargs else kwargs in
  match token with
  | Some token =>
      <["TokenCode" := token]> (<["SerialNumber" := of_str mfa_serial]> kwargs)
  | None => kwargs
  end.

(** The keyword arguments [get_session_token] passes. *)
Definition get_session_token_kwargs (mfa_serial : option string) (token : option pyval)
  : dict :=
  <["TokenCode" := default VNone token]>
    (<["SerialNumber" := match token with
                         | Some _ => of_str mfa_serial
                         | None => VNone
                         end]> ∅).

(** What an except clause for [Exception] raising [cls] lets out. *)
Definition reraised (cls : exn_class) (e : exn) : exn :=
  if is_Exception e then Exn cls (exn_str e) else e.

(** The cache and the events after [write_aws_cache]. *)
Definition cache_after_write (w : world) (cache_file_name : string) (session : pyval)
  (files : gmap string cache_file) : gmap string cache_file :=
  match session with
  | VDict d =>
      if disk_write_fails w cache_file_name then files
      else <[cache_file_name := Serialized d]> files
  | _ => files
  end.

Definition write_events (w : world) (cache_file_name : string) (session : pyval)
  : list event :=
  EvCacheWrite cache_file_name session ::
  match session with
  | VDict d =>
      if disk_write_fails w cache_file_name
      then [EvLog "There was an error writing to the cache file"] else []
  | _ => [EvLog "There was an error writing to the cache file"]
  end.

(** The value of [read_aws_cache]. *)
Definition cached_session (files : gmap string cache_file) (cache_file_name : string)
  : pyval :=
  match files !! cache_file_name with
  | Some (Serialized session) => VDict session
  | Some Corrupt | None => VNone
  end.

(** Writes to the cache found in a trace. *)
Definition is_cache_write (ev : event) : bool :=
  match ev with EvCacheWrite _ _ => true | _ => false end.

Definition cache_writes (tr : list event) : nat :=
  length (List.filter is_cache_write tr).

(** ** Sample worlds and inputs *)

Definition sample_expiration : datetime := Datetime 1700003600000000 0.

Definition sample_credentials : dict :=
  <["AccessKeyId" := VStr "ASIA_FRESH"]>
    (<["SecretAccessKey" := VStr "fresh-secret"]>
       (<["SessionToken" := VStr "fresh-token"]>
          (<["Expiration" := VDatetime sample_expiration]> ∅))).

Definition sample_response : pyval :=
  VDict (<["Credentials" := VDict sample_credentials]> ∅).

(** A platform whose [strftime] knows the format of [parse_time]. *)
Definition sample_strftime (format : string) (d : datetime) : string :=
  if String.eqb format time_format then strftime_YmdHMS d else format.

(** A boto3 that builds every client. *)
Definition no_client_error (client : sts_client) : option exn := None.

(** A boto3 that takes ['not a region'] for what it is. *)
Definition InvalidRegionError : exn :=
  Exn (LibraryError "InvalidRegionError")
    "Provided region_name 'not a region' doesn't match a supported format.".

Definition region_checked (client : sts_client) : option exn :=
  match region_name client with
  | VStr region =>
      if String.eqb region "not a region" then Some InvalidRegionError else None
  | _ => None
  end.

(** A service that answers every request, a user who types a token, a
    disk that takes writes; the clock is one hour before
    [sample_expiration]. *)
Definition sample_world : world :=
  World 1700000000000000 (fun _ => 3600) sample_strftime no_client_error
    (inr "123456")
    (fun _ _ => inr sample_response)
    (fun _ _ => inr sample_response)
    (fun _ => inr (VDict (<["Account" := VStr "123456789012"]> ∅)))
    (fun _ => false).

(** The same with a boto3 that checks the region. *)
Definition checking_world : world :=
  World 1700000000000000 (fun _ => 3600) sample_strftime region_checked
    (inr "123456")
    (fun _ _ => inr sample_response)
    (fun _ _ => inr sample_response)
    (fun _ => inr (VDict (<["Account" := VStr "123456789012"]> ∅)))
    (fun _ => false).

(** The same with a service that denies every request. *)
Definition denying_world : world :=
  World 1700000000000000 (fun _ => 3600) sample_strftime no_client_error
    (inr "123456")
    (fun _ _ => inl (Exn (LibraryError "ClientError") "AccessDenied"))
    (fun _ _ => inl (Exn (LibraryError "ClientError") "AccessDenied"))
    (fun _ => inl (Exn (LibraryError "ClientError") "AccessDenied"))
    (fun _ => false).

(** The same as [sample_world] with a disk that refuses writes. *)
Definition read_only_world : world :=
  World 1700000000000000 (fun _ => 3600) sample_strftime no_client_error
    (inr "123456")
    (fun _ _ => inr sample_response)
    (fun _ _ => inr sample_response)
    (fun _ => inr (VDict ∅))
    (fun _ => true).

(** A world in which the user interrupts the prompt and every remote
    call. *)
Definition interrupted_world : world :=
  World 1700000000000000 (fun _ => 3600) sample_strftime no_client_error
    (inl (Exn KeyboardInterrupt ""))
    (fun _ _ => inl (Exn KeyboardInterrupt ""))
    (fun _ _ => inl (Exn KeyboardInterrupt ""))
    (fun _ => inl (Exn KeyboardInterrupt ""))
    (fun _ => false).

Definition sample_source : dict :=
  <["AccessKeyId" := VStr "AKIA_TEST"]> (<["SecretAccessKey" := VStr "secret"]> ∅).

Definition sample_cached : dict :=
  <["AccessKeyId" := VStr "ASIA_CACHED"]>
    (<["SecretAccessKey" := VStr "cached-secret"]>
       (<["SessionToken" := VStr "cached-token"]>
          (<["Expiration" := VDatetime (Datetime 1700000900000000 0)]>
             (<["Region" := VStr "us-west-2"]> ∅)))).

Definition sample_files : gmap string cache_file :=
  <["aws-credentials-AKIA_TEST" := Serialized sample_cached]> ∅.

(** A cache whose entry for [sample_source] expired at the current
    instant of [sample_world]. *)
Definition stale_files : gmap string cache_file :=
  <["aws-credentials-AKIA_TEST" :=
      Serialized (<["Expiration" := VDatetime (Datetime 1700000000000000 0)]>
                    sample_cached)]> ∅.

(** ** Checks on concrete inputs *)

Example strftime_epoch : strftime_YmdHMS (Datetime 0 0) = "1970-01-01 00:00:00".
Proof. reflexivity. Qed.

Example strftime_leap_day :
  strftime_YmdHMS (Datetime 1709251199000000 0) = "2024-02-29 23:59:59".
Proof. reflexivity. Qed.

Example strftime_offset :
  strftime_YmdHMS (Datetime 1893456000000000 3600) = "2030-01-01 01:00:00".
Proof. reflexivity. Qed.

Example sample_cached_is_valid :
  cache_lib.valid_cache_session sample_world (VDict sample_cached) = true.
Proof. vm_compute. reflexivity. Qed.

Example expired_is_not_valid :
  cache_lib.valid_cache_session sample_world
    (VDict (<["Expiration" := VDatetime (Datetime 1700000000000000 0)]> sample_cached))
  = false.
Proof. vm_compute. reflexivity. Qed.

Example get_session_token_sample_trace :
  trace (snd (run (get_session_token sample_world sample_source "us-east-1"
                     (Some "arn:aws:iam::1:mfa/u") None false) ∅))
  = [EvCacheRead "aws-credentials-AKIA_TEST";
     EvLog "Getting session token";
     EvPrompt;
     EvGetSessionToken (client_config sample_source (VStr "us-east-1"))
       (<["TokenCode" := VStr "123456"]>
          (<["SerialNumber" := VStr "arn:aws:iam::1:mfa/u"]> ∅));
     EvLog "Session token received";
     EvCacheWrite "aws-credentials-AKIA_TEST"
       (VDict (localized sample_world "us-east-1" sample_credentials sample_expiration));
     EvPrint (Fore_GREEN ++ "Session token will expire at 2023-11-15 00:13:20")].
Proof. vm_compute. reflexivity. Qed.

Example assume_role_denied :
  fst (run (assume_role denying_world sample_source "arn:aws:iam::1:role/r" "session"
              "us-east-1" None None None None) ∅)
  = Raised (Exn RoleAuthenticationError "AccessDenied").
Proof. vm_compute. reflexivity. Qed.

Example get_session_token_denied :
  fst (run (get_session_token denying_world sample_source "us-east-1" None None false) ∅)
  = Raised (Exn UserAuthenticationError "AccessDenied").
Proof. vm_compute. reflexivity. Qed.

Example get_account_id_sample :
  fst (run (get_account_id sample_world sample_source) ∅) = Ok (VStr "123456789012").
Proof. vm_compute. reflexivity. Qed.

Example assume_role_rejected_region :
  run (assume_role checking_world sample_source "arn:aws:iam::1:role/r" "session"
         "not a region" None None (Some "arn:aws:iam::1:mfa/u") None) ∅
  = (Raised InvalidRegionError,
     State ∅ [EvLog "Assuming role: arn:aws:iam::1:role/r";
              EvLog "Session name: session"]).
Proof. vm_compute. reflexivity. Qed.

Example get_session_token_rejected_region :
  run (get_session_token checking_world sample_source "not a region" None None true)
    sample_files
  = (Raised InvalidRegionError,
     State sample_files [EvCacheRead "aws-credentials-AKIA_TEST";
                         EvLog "Getting session token"]).
Proof. vm_compute. reflexivity. Qed.

Example get_account_id_rejected_region :
  run (get_account_id checking_world (<["Region" := VStr "not a region"]> sample_source))
    ∅
  = (Ok (VStr "Unavailable"), State ∅ []).
Proof. vm_compute. reflexivity. Qed.

(** ** Running the code *)

Ltac state_proj :=
  repeat match goal with
    | |- context [trace (State ?c ?t)] => change (trace (State c t)) with t
    | |- context [cache (State ?c ?t)] => change (cache (State c t)) with c
    | H : context [trace (State ?c ?t)] |- _ => change (trace (State c t)) with t in H
    | H : context [cache (State ?c ?t)] |- _ => change (cache (State c t)) with c in H
    end.

Section runs.

Variable w : world.

(** *** The monad *)

Lemma bind_run {A B} (m : py A) (k : A -> py B) st r st' :
  m st = (r, st') ->
  bind m k st = match r with Ok a => k a st' | Raised e => (Raised e, st') end.
Proof. intros H. unfold bind. by rewrite H. Qed.

Lemma try_except_Exception_run {A} (body : py A) cls st r st' :
  body st = (r, st') ->
  try_except_Exception body (fun e => raise (Exn cls (exn_str e))) st
  = (match r with Ok a => Ok a | Raised e => Raised (reraised cls e) end, st').
Proof.
  intros H. unfold try_except_Exception, reraised. rewrite H.
  destruct r as [a | e]; [reflexivity |]. by destruct (is_Exception e).
Qed.

Lemma reraised_class cls e e' :
  reraised cls e = e' -> is_Exception e' = true -> exn_class_of e' = cls.
Proof.
  unfold reraised. destruct (is_Exception e) eqn:He; intros <-; [done |].
  by rewrite He.
Qed.

Lemma reraised_Exception cls e :
  is_Exception e = true -> reraised cls e = Exn cls (exn_str e).
Proof. unfold reraised. by intros ->. Qed.

Lemma eval_run {A B} (r : result A) (k : A -> py B) st :
  eval r k st = match r with Ok a => k a st | Raised e => (Raised e, st) end.
Proof. by destruct r. Qed.

(** *** Traces *)

(** Counting in traces. *)
Lemma remote_calls_app tr1 tr2 :
  remote_calls (tr1 ++ tr2) = (remote_calls tr1 + remote_calls tr2)%nat.
Proof. unfold remote_calls. by rewrite List.filter_app, length_app. Qed.

Lemma prompts_app tr1 tr2 : prompts (tr1 ++ tr2) = (prompts tr1 + prompts tr2)%nat.
Proof. unfold prompts. by rewrite List.filter_app, length_app. Qed.

Lemma cache_reads_app tr1 tr2 :
  cache_reads (tr1 ++ tr2) = (cache_reads tr1 + cache_reads tr2)%nat.
Proof. unfold cache_reads. by rewrite List.filter_app, length_app. Qed.

Lemma cache_writes_app tr1 tr2 :
  cache_writes (tr1 ++ tr2) = (cache_writes tr1 + cache_writes tr2)%nat.
Proof. unfold cache_writes. by rewrite List.filter_app, length_app. Qed.

Lemma remote_calls_cons ev tr :
  remote_calls (ev :: tr) = ((if is_remote_call ev then 1 else 0) + remote_calls tr)%nat.
Proof. unfold remote_calls. cbn [List.filter]. by destruct (is_remote_call ev). Qed.

Lemma prompts_cons ev tr :
  prompts (ev :: tr) = ((if is_prompt ev then 1 else 0) + prompts tr)%nat.
Proof. unfold prompts. cbn [List.filter]. by destruct (is_prompt ev). Qed.

Lemma cache_reads_cons ev tr :
  cache_reads (ev :: tr) = ((if is_cache_read ev then 1 else 0) + cache_reads tr)%nat.
Proof. unfold cache_reads. cbn [List.filter]. by destruct (is_cache_read ev). Qed.

Lemma cache_writes_cons ev tr :
  cache_writes (ev :: tr) = ((if is_cache_write ev then 1 else 0) + cache_writes tr)%nat.
Proof. unfold cache_writes. cbn [List.filter]. by destruct (is_cache_write ev). Qed.

Lemma remote_call_unique before call after ev :
  remote_calls before = 0%nat -> remote_calls after = 0%nat ->
  is_remote_call ev = true ->
  In ev (before ++ call :: after) -> ev = call.
Proof.
  intros Hb Ha Hev Hin.
  assert (Hnone : forall tr, remote_calls tr = 0%nat -> ~ In ev tr).
  { intros tr Htr Hin'.
    assert (In ev (List.filter is_remote_call tr)) as Hf
      by (by apply filter_In).
    unfold remote_calls in Htr. apply length_zero_iff_nil in Htr.
    by rewrite Htr in Hf. }
  apply in_app_iff in Hin as [Hin | [Hin | Hin]]; [| done |];
    by apply Hnone in Hin.
Qed.

(** *** The token code *)

Lemma mfa_outcome_total mfa_serial mfa_token :
  exists pre tok, mfa_outcome w mfa_serial mfa_token pre tok.
Proof.
  destruct (truthy (of_str mfa_serial)) eqn:Hs.
  - destruct (truthy (of_str mfa_token)) eqn:Ht.
    + eauto using mfa_token_supplied.
    + destruct (get_mfa_token_answer w) eqn:Ha;
        eauto using mfa_token_prompted, mfa_prompt_failed.
  - eauto using mfa_not_required.
Qed.

Lemma mfa_outcome_events mfa_serial mfa_token pre tok :
  mfa_outcome w mfa_serial mfa_token pre tok ->
  remote_calls pre = 0%nat /\ cache_reads pre = 0%nat
  /\ (forall ev, In ev pre -> ev = EvPrompt).
Proof.
  intros [| | |]; split_and!; try reflexivity;
    intros ev Hin; repeat destruct Hin as [Hin | Hin]; done.
Qed.

(** *** The response of the service *)

(** The statements run on the response never touch the state. *)
Lemma response_statements region response st :
  exists r,
    (let? session := get_method response "Credentials" VNone in
     let? expiration := getitem session "Expiration" in
     let? expiration := astimezone_tzlocal w expiration in
     let? session := setitem session "Expiration" expiration in
     let? session := setitem session "Region" (VStr region) in
     ret session) st = (r, st)
    /\ session_outcome w region (inr response) r.
Proof.
  destruct response as [| s | n | d | r];
    try (eexists; split; [reflexivity | by apply response_malformed]).
  unfold get_method, getitem, dict_get_default.
  destruct (r !! "Credentials") as [[| s | n | d | creds]|] eqn:Hc;
    try (eexists; split;
         [reflexivity
         | apply response_malformed; [unfold credentials_of; by rewrite Hc | done]]).
  cbn [default eval id].
  destruct (creds !! "Expiration") as [[| s | n | expiration | d]|] eqn:He;
    cbn [eval];
    try (eexists; split;
         [reflexivity
         | apply response_malformed;
           [unfold credentials_of; by rewrite Hc, He | done]]).
  eexists; split; [reflexivity |].
  apply response_accepted. unfold credentials_of. by rewrite Hc, He.
Qed.

(** One call to the service followed by the statements on its response. *)
Lemma remote_call_run (call : event) (a : exn + pyval) region st :
  exists r,
    (let! response := (do! emit call in answer a) in
     let? session := get_method response "Credentials" VNone in
     let? expiration := getitem session "Expiration" in
     let? expiration := astimezone_tzlocal w expiration in
     let? session := setitem session "Expiration" expiration in
     let? session := setitem session "Region" (VStr region) in
     ret session) st
    = (r, State (cache st) (trace st ++ [call])%list)
    /\ session_outcome w region a r.
Proof.
  destruct a as [e | response].
  - exists (Raised e). split; [reflexivity | constructor].
  - destruct (response_statements region response
                (State (cache st) (trace st ++ [call])%list)) as (r & Hr & Ho).
    exists r. split; [exact Hr | exact Ho].
Qed.

Lemma session_outcome_Ok region a v :
  session_outcome w region a (Ok v) ->
  exists response creds expiration,
    a = inr response /\ credentials_of response = Some (creds, expiration)
    /\ v = VDict (localized w region creds expiration).
Proof. inversion 1; subst; eauto 10. Qed.

Lemma localized_Expiration region creds expiration :
  localized w region creds expiration !! "Expiration"
  = Some (VDatetime (to_local w expiration)).
Proof. unfold localized. rewrite lookup_insert_ne by done. apply lookup_insert_eq. Qed.

Lemma localized_Region region creds expiration :
  localized w region creds expiration !! "Region" = Some (VStr region).
Proof. apply lookup_insert_eq. Qed.

Lemma credentials_of_Some response r creds expiration :
  response = VDict r ->
  r !! "Credentials" = Some (VDict creds) ->
  creds !! "Expiration" = Some (VDatetime expiration) ->
  credentials_of response = Some (creds, expiration).
Proof. intros -> Hc He. unfold credentials_of. by rewrite Hc, He. Qed.

(** *** The cache *)

Lemma read_aws_cache_run cache_file_name st :
  cache_lib.read_aws_cache cache_file_name st
  = (Ok (cached_session (cache st) cache_file_name),
     State (cache st) (trace st ++ [EvCacheRead cache_file_name])%list).
Proof.
  unfold cache_lib.read_aws_cache, cached_session, bind, emit, get_cache.
  cbn [cache trace]. by destruct (cache st !! cache_file_name) as [[?|]|].
Qed.

Lemma write_aws_cache_run cache_file_name session st :
  cache_lib.write_aws_cache w cache_file_name session st
  = (Ok tt,
     State (cache_after_write w cache_file_name session (cache st))
       (trace st ++ write_events w cache_file_name session)%list).
Proof.
  unfold cache_lib.write_aws_cache, cache_after_write, write_events, logger_debug,
    bind, emit, get_cache, put_cache.
  destruct session; try destruct (disk_write_fails w cache_file_name);
    cbn [cache trace]; by rewrite <- ?app_assoc.
Qed.

Lemma write_events_quiet cache_file_name session :
  remote_calls (write_events w cache_file_name session) = 0%nat
  /\ cache_reads (write_events w cache_file_name session) = 0%nat
  /\ prompts (write_events w cache_file_name session) = 0%nat.
Proof.
  unfold write_events.
  destruct session; try destruct (disk_write_fails w cache_file_name); done.
Qed.

Lemma valid_cache_session_inv session :
  cache_lib.valid_cache_session w session = true ->
  exists d expiration,
    session = VDict d /\ d !! "Expiration" = Some (VDatetime expiration)
    /\ now w < dt_instant expiration.
Proof.
  destruct session as [| | | | d]; try discriminate. cbn.
  rewrite !andb_true_iff. intros (_ & H).
  destruct (d !! "Expiration") as [[| | | expiration |]|] eqn:He; try discriminate.
  exists d, expiration. split_and!; [done | done | by apply Z.ltb_lt].
Qed.

Lemma cached_session_insert files name d :
  cached_session (<[name := Serialized d]> files) name = VDict d.
Proof. unfold cached_session. by rewrite lookup_insert_eq. Qed.

Lemma write_events_remote_calls name session :
  remote_calls (write_events w name session) = 0%nat.
Proof. by destruct (write_events_quiet name session) as (-> & _). Qed.

Lemma write_events_cache_reads name session :
  cache_reads (write_events w name session) = 0%nat.
Proof. by destruct (write_events_quiet name session) as (_ & -> & _). Qed.

Lemma write_events_prompts name session :
  prompts (write_events w name session) = 0%nat.
Proof. by destruct (write_events_quiet name session) as (_ & _ & ->). Qed.

Lemma write_events_cache_writes name session :
  cache_writes (write_events w name session) = 1%nat.
Proof.
  unfold write_events. by destruct session; try destruct (disk_write_fails w name).
Qed.

Lemma cache_miss files name ignore_cache :
  ignore_cache = true
  \/ (forall d, files !! name = Some (Serialized d) ->
                cache_lib.valid_cache_session w (VDict d) = false) ->
  cache_lib.valid_cache_session w (cached_session files name) && negb ignore_cache
  = false.
Proof.
  intros [-> | Hstale]; [apply andb_false_r |].
  unfold cached_session.
  destruct (files !! name) as [[d|]|]; [| done..]. by rewrite (Hstale d eq_refl).
Qed.

(** *** The client *)

Lemma boto3_sts_client_built credentials region :
  client_error w (client_config credentials region) = None ->
  boto3_sts_client w credentials region = Ok (client_config credentials region).
Proof. unfold boto3_sts_client. by intros ->. Qed.

Lemma boto3_sts_client_refused credentials region e :
  client_error w (client_config credentials region) = Some e ->
  boto3_sts_client w credentials region = Raised e.
Proof. unfold boto3_sts_client. by intros ->. Qed.

(** *** The bodies of the [try] *)

Lemma assume_role_try_run c role_arn session_name region external_id role_duration
    mfa_serial mfa_token st pre tok :
  mfa_outcome w mfa_serial mfa_token pre tok ->
  match tok with
  | Raised e =>
      assume_role_try w c role_arn session_name region external_id role_duration
        mfa_serial mfa_token st
      = (Raised e, State (cache st) (trace st ++ pre)%list)
  | Ok token =>
      exists r,
        assume_role_try w c role_arn session_name region external_id role_duration
          mfa_serial mfa_token st
        = (r, State (cache st)
                (trace st ++ pre ++
                 [EvAssumeRole c
                    (assume_role_kwargs role_arn session_name external_id
                       role_duration mfa_serial token)])%list)
        /\ session_outcome w region
             (assume_role_answer w c
                (assume_role_kwargs role_arn session_name external_id
                   role_duration mfa_serial token)) r
  end.
Proof.
  intros [Hs | Hs Ht | token Hs Ht Ha | e Hs Ht Ha];
    unfold assume_role_try, py_or, profile_lib.get_mfa_token;
    rewrite Hs, ?Ht, ?Ha.
  - apply (remote_call_run (EvAssumeRole c _) _ region st).
  - apply (remote_call_run (EvAssumeRole c _) _ region st).
  - rewrite (app_assoc (trace st)).
    apply (remote_call_run (EvAssumeRole c _) _ region
             (State (cache st) (trace st ++ [EvPrompt])%list)).
  - reflexivity.
Qed.

Lemma assume_role_kwargs_mfa role_arn session_name external_id role_duration
    mfa_serial token :
  assume_role_kwargs role_arn session_name external_id role_duration mfa_serial
    (Some token) !! "TokenCode" = Some token
  /\ assume_role_kwargs role_arn session_name external_id role_duration mfa_serial
       (Some token) !! "SerialNumber" = Some (of_str mfa_serial).
Proof.
  unfold assume_role_kwargs. split.
  - apply lookup_insert_eq.
  - rewrite lookup_insert_ne by done. apply lookup_insert_eq.
Qed.

Lemma get_session_token_try_run c region mfa_serial mfa_token st pre tok :
  mfa_outcome w mfa_serial mfa_token pre tok ->
  match tok with
  | Raised e =>
      get_session_token_try w c region mfa_serial mfa_token st
      = (Raised e, State (cache st) (trace st ++ pre)%list)
  | Ok token =>
      exists r,
        get_session_token_try w c region mfa_serial mfa_token st
        = (r, State (cache st)
                (trace st ++ pre ++
                 [EvGetSessionToken c (get_session_token_kwargs mfa_serial token)])%list)
        /\ session_outcome w region
             (get_session_token_answer w c (get_session_token_kwargs mfa_serial token)) r
  end.
Proof.
  intros [Hs | Hs Ht | token Hs Ht Ha | e Hs Ht Ha];
    unfold get_session_token_try, py_or, profile_lib.get_mfa_token;
    rewrite Hs, ?Ht, ?Ha.
  - apply (remote_call_run (EvGetSessionToken c _) _ region st).
  - apply (remote_call_run (EvGetSessionToken c _) _ region st).
  - rewrite (app_assoc (trace st)).
    apply (remote_call_run (EvGetSessionToken c _) _ region
             (State (cache st) (trace st ++ [EvPrompt])%list)).
  - reflexivity.
Qed.

(** *** [assume_role] *)

Lemma assume_role_refused sc role_arn session_name region external_id role_duration
    mfa_serial mfa_token files e :
  client_error w (client_config sc (VStr region)) = Some e ->
  run (assume_role w sc role_arn session_name region external_id role_duration
         mfa_serial mfa_token) files
  = (Raised e,
     State files [EvLog ("Assuming role: " ++ role_arn);
                  EvLog ("Session name: " ++ session_name)]).
Proof.
  intros Hc. unfold run, assume_role, logger_debug.
  do 2 (erewrite bind_run by reflexivity). cbn [cache trace app].
  by rewrite (boto3_sts_client_refused _ _ _ Hc).
Qed.

Lemma assume_role_except sc role_arn session_name region external_id role_duration
    mfa_serial mfa_token files e st1 :
  client_error w (client_config sc (VStr region)) = None ->
  assume_role_try w (client_config sc (VStr region)) role_arn session_name region
    external_id role_duration mfa_serial mfa_token
    (State files [EvLog ("Assuming role: " ++ role_arn);
                  EvLog ("Session name: " ++ session_name)])
  = (Raised e, st1) ->
  run (assume_role w sc role_arn session_name region external_id role_duration
         mfa_serial mfa_token) files
  = (Raised (reraised RoleAuthenticationError e), st1).
Proof.
  intros Hc Htry. unfold run, assume_role, logger_debug.
  do 2 (erewrite bind_run by reflexivity). cbn [cache trace app].
  rewrite (boto3_sts_client_built _ _ Hc). cbn [eval].
  by erewrite bind_run by (apply try_except_Exception_run, Htry).
Qed.

(** What [assume_role] returns and leaves in the trace, read off the
    answers of the world. *)
Lemma assume_role_trace sc role_arn session_name region external_id role_duration
    mfa_serial mfa_token files pre tok :
  mfa_outcome w mfa_serial mfa_token pre tok ->
  let c := client_config sc (VStr region) in
  exists res tr,
    run (assume_role w sc role_arn session_name region external_id role_duration
           mfa_serial mfa_token) files
    = (res, State files
              ([EvLog ("Assuming role: " ++ role_arn);
                EvLog ("Session name: " ++ session_name)] ++ tr)%list)
    /\ match client_error w c with
       | Some e => res = Raised e /\ tr = []
       | None =>
           match tok with
           | Raised e =>
               res = Raised (reraised RoleAuthenticationError e) /\ tr = pre
           | Ok token =>
               let kwargs :=
                 assume_role_kwargs role_arn session_name external_id role_duration
                   mfa_serial token in
               match assume_role_answer w c kwargs with
               | inl e =>
                   res = Raised (reraised RoleAuthenticationError e)
                   /\ tr = (pre ++ [EvAssumeRole c kwargs])%list
               | inr response =>
                   match credentials_of response with
                   | Some (creds, expiration) =>
                       res = Ok (VDict (localized w region creds expiration))
                       /\ tr = (pre ++
                                [EvAssumeRole c kwargs;
                                 EvLog "Role credentials received";
                                 EvPrint
                                   (Fore_GREEN ++ "Role credentials will expire " ++
                                    strftime_answer w time_format
                                      (to_local w expiration))])%list
                   | None =>
                       exists e,
                         is_Exception e = true
                         /\ res = Raised (Exn RoleAuthenticationError (exn_str e))
                         /\ tr = (pre ++ [EvAssumeRole c kwargs])%list
                   end
               end
           end
       end.
Proof.
  intros Hmfa c.
  destruct (client_error w c) as [e |] eqn:Hc.
  { rewrite (assume_role_refused _ _ _ _ _ _ _ _ _ _ Hc).
    by exists (Raised e), []. }
  pose proof (assume_role_try_run c role_arn session_name region external_id
                role_duration _ _
                (State files [EvLog ("Assuming role: " ++ role_arn);
                              EvLog ("Session name: " ++ session_name)])
                _ _ Hmfa) as Htry.
  destruct tok as [token | e].
  2: { apply (assume_role_except _ _ _ _ _ _ _ _ _ _ _ Hc) in Htry.
       rewrite Htry. state_proj. by eexists _, _. }
  destruct Htry as (r & Htry & Ho). cbn zeta.
  set (kwargs := assume_role_kwargs role_arn session_name external_id role_duration
                   mfa_serial token) in *.
  destruct (assume_role_answer w c kwargs) as [e0 | response] eqn:Ha.
  { inversion Ho; subst.
    apply (assume_role_except _ _ _ _ _ _ _ _ _ _ _ Hc) in Htry.
    rewrite Htry. state_proj. by eexists _, _. }
  inversion Ho as [| ? creds expiration Hcreds | ? e Hcreds Hexc]; subst;
    rewrite Hcreds.
  - exists (Ok (VDict (localized w region creds expiration))). eexists.
    split; [| split; reflexivity].
    unfold run, assume_role, logger_debug.
    do 2 (erewrite bind_run by reflexivity). cbn [cache trace app].
    rewrite (boto3_sts_client_built _ _ Hc). cbn [eval].
    erewrite bind_run by (apply try_except_Exception_run, Htry). cbv beta iota.
    erewrite bind_run by reflexivity.
    unfold getitem. rewrite localized_Expiration.
    unfold eval, parse_time, astimezone_tzlocal, strftime, bind, safe_print, emit, ret.
    cbn [cache trace dt_instant to_local].
    rewrite <- !app_assoc. reflexivity.
  - apply (assume_role_except _ _ _ _ _ _ _ _ _ _ _ Hc) in Htry.
    rewrite Htry. state_proj.
    eexists _, _. split; [reflexivity |]. exists e. by rewrite reraised_Exception.
Qed.

(** *** [get_session_token] *)

Lemma get_session_token_key_error sc region mfa_serial mfa_token ignore_cache files :
  (forall key, sc !! "AccessKeyId" <> Some (VStr key)) ->
  exists e,
    run (get_session_token w sc region mfa_serial mfa_token ignore_cache) files
    = (Raised e, State files [])
    /\ exn_class_of e = TypeError.
Proof.
  intros Hkey. unfold run, get_session_token, dict_get.
  destruct (sc !! "AccessKeyId") as [[| key | | |]|]; cbn [default id str_add eval];
    try (eexists; split; reflexivity).
  by destruct (Hkey key).
Qed.

Lemma get_session_token_key sc region mfa_serial mfa_token ignore_cache files res st' :
  run (get_session_token w sc region mfa_serial mfa_token ignore_cache) files
  = (res, st') ->
  (exists key, sc !! "AccessKeyId" = Some (VStr key))
  \/ (st' = State files [] /\ exists e, res = Raised e /\ exn_class_of e = TypeError).
Proof.
  intros Hrun.
  destruct (sc !! "AccessKeyId") as [[| key | | |]|] eqn:Hkey; [| by eauto | | | |];
    right;
    (destruct (get_session_token_key_error sc region mfa_serial mfa_token
                 ignore_cache files) as (e & He & Hcls);
     [intros key'; by rewrite Hkey |
      rewrite He in Hrun; injection Hrun as <- <-; eauto]).
Qed.

(** What [get_session_token] returns, leaves in the cache and leaves in
    the trace, read off the cache and the answers of the world. *)
Lemma get_session_token_trace sc region mfa_serial mfa_token ignore_cache files key
    pre tok :
  sc !! "AccessKeyId" = Some (VStr key) ->
  mfa_outcome w mfa_serial mfa_token pre tok ->
  let name := cache_prefix ++ key in
  let c := client_config sc (VStr region) in
  exists res files' tr,
    run (get_session_token w sc region mfa_serial mfa_token ignore_cache) files
    = (res, State files' (EvCacheRead name :: tr))
    /\ if cache_lib.valid_cache_session w (cached_session files name)
          && negb ignore_cache
       then
         exists d expiration,
           cached_session files name = VDict d
           /\ d !! "Expiration" = Some (VDatetime expiration)
           /\ res = Ok (VDict d) /\ files' = files
           /\ tr = [EvLog "Using cache session";
                    EvPrint (Fore_GREEN ++ "Session token will expire at " ++
                             strftime_answer w time_format (to_local w expiration))]
       else
         match client_error w c with
         | Some e =>
             res = Raised e /\ files' = files /\ tr = [EvLog "Getting session token"]
         | None =>
             match tok with
             | Raised e =>
                 res = Raised (reraised UserAuthenticationError e) /\ files' = files
                 /\ tr = (EvLog "Getting session token" :: pre)
             | Ok token =>
                 let kwargs := get_session_token_kwargs mfa_serial token in
                 match get_session_token_answer w c kwargs with
                 | inl e =>
                     res = Raised (reraised UserAuthenticationError e)
                     /\ files' = files
                     /\ tr = (EvLog "Getting session token" :: pre ++
                              [EvGetSessionToken c kwargs])%list
                 | inr response =>
                     match credentials_of response with
                     | Some (creds, expiration) =>
                         let session := VDict (localized w region creds expiration) in
                         res = Ok session
                         /\ files' = cache_after_write w name session files
                         /\ tr = (EvLog "Getting session token" :: pre ++
                                  [EvGetSessionToken c kwargs;
                                   EvLog "Session token received"] ++
                                  write_events w name session ++
                                  [EvPrint
                                     (Fore_GREEN ++ "Session token will expire at " ++
                                      strftime_answer w time_format
                                        (to_local w expiration))])%list
                     | None =>
                         exists e,
                           is_Exception e = true
                           /\ res = Raised (Exn UserAuthenticationError (exn_str e))
                           /\ files' = files
                           /\ tr = (EvLog "Getting session token" :: pre ++
                                    [EvGetSessionToken c kwargs])%list
                     end
                 end
             end
         end.
Proof.
  intros Hkey Hmfa name c.
  assert (Hread : forall k : string -> pyval -> py pyval,
            run (let? cache_file_name := str_add cache_prefix (dict_get sc "AccessKeyId") in
                 let! cache_session := cache_lib.read_aws_cache cache_file_name in
                 k cache_file_name cache_session) files
            = k name (cached_session files name) (State files [EvCacheRead name])).
  { intros k. unfold run, dict_get. rewrite Hkey. cbn [default id str_add eval].
    by erewrite bind_run by apply read_aws_cache_run. }
  destruct (cache_lib.valid_cache_session w (cached_session files name)
            && negb ignore_cache) eqn:Hvalid.
  - unfold get_session_token. rewrite Hread, Hvalid.
    apply andb_true_iff in Hvalid as [Hvalid _].
    apply valid_cache_session_inv in Hvalid as (d & expiration & Hd & He & _).
    rewrite Hd.
    exists (Ok (VDict d)), files. eexists. split; [| by exists d, expiration].
    unfold logger_debug. erewrite bind_run by reflexivity.
    unfold getitem. rewrite He. reflexivity.
  - destruct (client_error w c) as [e |] eqn:Hc.
    { unfold get_session_token. rewrite Hread, Hvalid.
      unfold logger_debug at 1. erewrite bind_run by reflexivity.
      rewrite (boto3_sts_client_refused _ _ _ Hc). by eexists _, _, _. }
    set (start := [EvCacheRead name; EvLog "Getting session token"]).
    pose proof (get_session_token_try_run c region _ _ (State files start) _ _ Hmfa)
      as Htry.
    assert (Hgo : forall r st',
              get_session_token_try w c region mfa_serial mfa_token (State files start)
              = (r, st') ->
              run (get_session_token w sc region mfa_serial mfa_token ignore_cache) files
              = match r with
                | Ok session =>
                    (do! logger_debug "Session token received" in
                     do! cache_lib.write_aws_cache w name session in
                     let? shown := get_method session "Expiration" VNone in
                     do! (if truthy shown
                          then
                            let? expiration := getitem session "Expiration" in
                            let? expires := parse_time w expiration in
                            safe_print
                              (Fore_GREEN ++ "Session token will expire at " ++ expires)
                          else ret tt) in
                     ret session) st'
                | Raised e => (Raised (reraised UserAuthenticationError e), st')
                end).
    { intros r st' Hr. unfold get_session_token.
      rewrite Hread, Hvalid.
      unfold logger_debug at 1. erewrite bind_run by reflexivity.
      rewrite (boto3_sts_client_built _ _ Hc). cbn [eval].
      erewrite bind_run by (apply try_except_Exception_run, Hr).
      by destruct r. }
    destruct tok as [token | e].
    2: { rewrite (Hgo _ _ Htry). state_proj. by eexists _, _, _. }
    destruct Htry as (r & Htry & Ho). cbn zeta. rewrite (Hgo _ _ Htry).
    set (kwargs := get_session_token_kwargs mfa_serial token) in *.
    destruct (get_session_token_answer w c kwargs) as [e0 | response] eqn:Ha.
    { inversion Ho; subst. state_proj. by eexists _, _, _. }
    inversion Ho as [| ? creds expiration Hcreds | ? e Hcreds Hexc]; subst;
      rewrite Hcreds.
    + eexists _, _, _. split; [| split_and!; reflexivity].
      unfold logger_debug.
      erewrite bind_run by reflexivity.
      erewrite bind_run by apply write_aws_cache_run.
      unfold get_method, getitem, dict_get_default.
      rewrite localized_Expiration.
      cbn [cache trace default id eval truthy].
      unfold eval, parse_time, astimezone_tzlocal, strftime, bind, safe_print, emit, ret.
      cbn [cache trace dt_instant to_local].
      rewrite <- !app_assoc. reflexivity.
    + state_proj. eexists _, _, _. split; [reflexivity |].
      exists e. by rewrite reraised_Exception.
Qed.

(** *** [get_account_id] *)

Lemma get_account_id_run credentials files :
  let c :=
    client_config credentials
      (dict_get_default credentials "Region" (VStr "us-east-1")) in
  run (get_account_id w credentials) files
  = match client_error w c with
    | Some _ => (Ok (VStr "Unavailable"), State files [])
    | None =>
        (Ok match get_caller_identity_answer w c with
            | inr (VDict response) =>
                dict_get_default response "Account" (VStr "Unavailable")
            | _ => VStr "Unavailable"
            end,
         State files [EvGetCallerIdentity c])
    end.
Proof.
  intros c. unfold run, get_account_id, try_except, boto3_sts_client. fold c.
  destruct (client_error w c) as [e |]; [reflexivity |].
  unfold client_get_caller_identity, eval, bind, emit, answer.
  by destruct (get_caller_identity_answer w c) as [e | []].
Qed.

End runs.

(** ** Events of a run *)

Ltac split_cases H :=
  cbn zeta in H;
  repeat match type of H with
    | context [match credentials_of ?r with _ => _ end] =>
        destruct (credentials_of r) as [[? ?]|] eqn:?
    | context [match ?x with _ => _ end] => destruct x eqn:?
    | context [if ?b then _ else _] => destruct b eqn:?
    end;
  repeat match type of H with
    | _ /\ _ => let H' := fresh in destruct H as [H' H]
    | exists _, _ => let x := fresh in destruct H as [x H]
    end;
  subst.

Ltac count_events :=
  rewrite ?remote_calls_app, ?prompts_app, ?cache_reads_app, ?cache_writes_app,
    ?remote_calls_cons, ?prompts_cons, ?cache_reads_cons, ?cache_writes_cons,
    ?remote_calls_app, ?prompts_app, ?cache_reads_app, ?cache_writes_app,
    ?remote_calls_cons, ?prompts_cons, ?cache_reads_cons, ?cache_writes_cons,
    ?write_events_remote_calls, ?write_events_cache_reads, ?write_events_prompts,
    ?write_events_cache_writes;
  cbn [is_remote_call is_prompt is_cache_read is_cache_write];
  try reflexivity.


Lemma quiet_events tr ev :
  remote_calls tr = 0%nat -> In ev tr -> is_remote_call ev = false.
Proof.
  intros Hquiet Hin. destruct (is_remote_call ev) eqn:Hev; [| done].
  assert (Hf : In ev (List.filter is_remote_call tr)) by (by apply filter_In).
  unfold remote_calls in Hquiet. apply length_zero_iff_nil in Hquiet.
  by rewrite Hquiet in Hf.
Qed.

(** The only remote call of [assume_role], its client and its
    arguments. *)
Lemma assume_role_call w sc role_arn session_name region external_id role_duration
    mfa_serial mfa_token files c kwargs :
  In (EvAssumeRole c kwargs)
    (trace (snd (run (assume_role w sc role_arn session_name region external_id
                        role_duration mfa_serial mfa_token) files))) ->
  exists pre token,
    mfa_outcome w mfa_serial mfa_token pre (Ok token)
    /\ c = client_config sc (VStr region)
    /\ kwargs = assume_role_kwargs role_arn session_name external_id role_duration
                  mfa_serial token
    /\ client_error w c = None.
Proof.
  destruct (mfa_outcome_total w mfa_serial mfa_token) as (pre & tok & Hmfa).
  destruct (assume_role_trace w sc role_arn session_name region external_id
              role_duration mfa_serial mfa_token files pre tok Hmfa)
    as (res & tr & -> & Hcase).
  cbn [snd]. state_proj. intros Hin.
  destruct (mfa_outcome_events _ _ _ _ _ Hmfa) as (Hpre & _ & _).
  assert (Hc : In (EvAssumeRole c kwargs) tr).
  { apply in_app_iff in Hin as [Hin | Hin]; [| done].
    repeat destruct Hin as [Hin | Hin]; done. }
  clear Hin.
  assert (Hquiet : ~ In (EvAssumeRole c kwargs) pre).
  { intros Hin. by apply (quiet_events _ _ Hpre) in Hin. }
  split_cases Hcase;
    try (apply in_app_iff in Hc as [Hc | Hc]; [done |]);
    repeat destruct Hc as [Hc | Hc]; try done;
    injection Hc as <- <-; by eexists _, _.
Qed.

(** The only remote call of [get_session_token], its client and its
    arguments; it is made on a cache miss only. *)
Lemma get_session_token_call w sc region mfa_serial mfa_token ignore_cache files
    res st' c kwargs :
  run (get_session_token w sc region mfa_serial mfa_token ignore_cache) files
  = (res, st') ->
  In (EvGetSessionToken c kwargs) (trace st') ->
  exists key pre token,
    sc !! "AccessKeyId" = Some (VStr key)
    /\ mfa_outcome w mfa_serial mfa_token pre (Ok token)
    /\ c = client_config sc (VStr region)
    /\ kwargs = get_session_token_kwargs mfa_serial token
    /\ client_error w c = None
    /\ cache_lib.valid_cache_session w (cached_session files (cache_prefix ++ key))
       && negb ignore_cache = false.
Proof.
  intros Hrun Hin.
  destruct (get_session_token_key _ _ _ _ _ _ _ _ _ Hrun)
    as [[key Hkey] | [-> _]]; [| done].
  destruct (mfa_outcome_total w mfa_serial mfa_token) as (pre & tok & Hmfa).
  destruct (mfa_outcome_events _ _ _ _ _ Hmfa) as (Hpre & _ & _).
  destruct (get_session_token_trace w sc region mfa_serial mfa_token ignore_cache
              files key pre tok Hkey Hmfa) as (res' & files' & tr & Hgo & Hcase).
  rewrite Hgo in Hrun. apply pair_equal_spec in Hrun as [<- <-]. state_proj.
  destruct Hin as [Hin | Hin]; [done |].
  assert (Hquiet : ~ In (EvGetSessionToken c kwargs) pre).
  { intros Hin'. by apply (quiet_events _ _ Hpre) in Hin'. }
  assert (Hwrite : forall name session,
            ~ In (EvGetSessionToken c kwargs) (write_events w name session)).
  { intros name session Hin'.
    by apply (quiet_events _ _ (write_events_remote_calls w name session)) in Hin'. }
  exists key.
  split_cases Hcase;
    repeat (first [ apply in_app_iff in Hin as [Hin | Hin]
                  | by apply Hwrite in Hin
                  | by apply Hquiet in Hin
                  | destruct Hin as [Hin | Hin] ]);
    try done; injection Hin as <- <-; by eexists _, _.
Qed.

(** The run in which the service answers with credentials. *)
Lemma get_session_token_fresh w sc region mfa_serial mfa_token ignore_cache files
    res st' c kwargs response creds expiration :
  run (get_session_token w sc region mfa_serial mfa_token ignore_cache) files
  = (res, st') ->
  In (EvGetSessionToken c kwargs) (trace st') ->
  get_session_token_answer w c kwargs = inr response ->
  credentials_of response = Some (creds, expiration) ->
  exists key pre,
    let session := VDict (localized w region creds expiration) in
    sc !! "AccessKeyId" = Some (VStr key)
    /\ remote_calls pre = 0%nat
    /\ res = Ok session
    /\ cache st' = cache_after_write w (cache_prefix ++ key) session files
    /\ trace st'
       = (EvCacheRead (cache_prefix ++ key) :: EvLog "Getting session token" :: pre ++
          [EvGetSessionToken c kwargs; EvLog "Session token received"] ++
          write_events w (cache_prefix ++ key) session ++
          [EvPrint (Fore_GREEN ++ "Session token will expire at " ++
                    strftime_answer w time_format (to_local w expiration))])%list.
Proof.
  intros Hrun Hin Ha Hcreds.
  destruct (get_session_token_call _ _ _ _ _ _ _ _ _ _ _ Hrun Hin)
    as (key & pre & token & Hkey & Hmfa & -> & -> & Hc & Hmiss).
  destruct (mfa_outcome_events _ _ _ _ _ Hmfa) as (Hpre & _ & _).
  destruct (get_session_token_trace w sc region mfa_serial mfa_token ignore_cache
              files key pre (Ok token) Hkey Hmfa) as (res' & files' & tr & Hgo & Hcase).
  cbn zeta in Hcase. rewrite Hmiss, Hc, Ha, Hcreds in Hcase.
  destruct Hcase as (-> & -> & ->).
  rewrite Hgo in Hrun. apply pair_equal_spec in Hrun as [<- <-]. state_proj.
  by exists key, pre.
Qed.

Lemma write_events_In w name session :
  In (EvCacheWrite name session) (write_events w name session).
Proof. by left. Qed.

Lemma get_session_token_cached w sc region mfa_serial mfa_token key files session :
  sc !! "AccessKeyId" = Some (VStr key) ->
  cached_session files (cache_prefix ++ key) = session ->
  cache_lib.valid_cache_session w session = true ->
  exists tr,
    run (get_session_token w sc region mfa_serial mfa_token false) files
    = (Ok session, State files tr)
    /\ remote_calls tr = 0%nat.
Proof.
  intros Hkey Hcached Hvalid.
  destruct (mfa_outcome_total w mfa_serial mfa_token) as (pre & tok & Hmfa).
  destruct (get_session_token_trace w sc region mfa_serial mfa_token false files
              key pre tok Hkey Hmfa) as (res & files' & tr & Hgo & Hcase).
  rewrite Hcached, Hvalid in Hcase.
  destruct Hcase as (d & expiration & -> & _ & -> & -> & ->).
  eexists. split; [exact Hgo | reflexivity].
Qed.

(** Without an MFA serial, every run that reaches the service passes
    both keys, with value [None]. *)
Lemma get_session_token_kwargs_without_mfa w sc region mfa_serial mfa_token
    ignore_cache files res st' c kwargs :
  run (get_session_token w sc region mfa_serial mfa_token ignore_cache) files
  = (res, st') ->
  truthy (of_str mfa_serial) = false ->
  In (EvGetSessionToken c kwargs) (trace st') ->
  kwargs !! "SerialNumber" = Some VNone /\ kwargs !! "TokenCode" = Some VNone.
Proof.
  intros Hrun Hserial Hin.
  destruct (get_session_token_call _ _ _ _ _ _ _ _ _ _ _ Hrun Hin)
    as (key & pre & token & _ & Hmfa & _ & -> & _).
  inversion Hmfa as [Hs | Hs Ht | ? Hs Ht Ha |]; subst;
    [| by rewrite Hserial in Hs..].
  by vm_compute.
Qed.

(** ** The claims *)

(** C1. With [ignore_cache] false, a valid cache entry under
    ['aws-credentials-' + AccessKeyId] is what [get_session_token]
    returns, and the remote service is not called; so a call that
    follows one which left a still valid entry does not call it. *)
Theorem get_session_token_uses_valid_cache :
  (forall w sc region mfa_serial mfa_token key d files,
     sc !! "AccessKeyId" = Some (VStr key) ->
     files !! (cache_prefix ++ key) = Some (Serialized d) ->
     cache_lib.valid_cache_session w (VDict d) = true ->
     exists tr,
       run (get_session_token w sc region mfa_serial mfa_token false) files
       = (Ok (VDict d), State files tr)
       /\ remote_calls tr = 0%nat)
  /\
  (forall w1 w2 sc region1 serial1 token1 ignore1 region2 serial2 token2
          files session st1,
     run (get_session_token w1 sc region1 serial1 token1 ignore1) files
     = (Ok session, st1) ->
     (forall name, disk_write_fails w1 name = false) ->
     cache_lib.valid_cache_session w2 session = true ->
     exists tr,
       run (get_session_token w2 sc region2 serial2 token2 false) (cache st1)
       = (Ok session, State (cache st1) tr)
       /\ remote_calls tr = 0%nat).
Proof.
  split.
  - intros w sc region mfa_serial mfa_token key d files Hkey Hfile Hvalid.
    apply (get_session_token_cached w sc region mfa_serial mfa_token key);
      [done | | done].
    unfold cached_session. by rewrite Hfile.
  - intros w1 w2 sc region1 serial1 token1 ignore1 region2 serial2 token2
      files session st1 Hrun Hdisk Hvalid.
    destruct (get_session_token_key _ _ _ _ _ _ _ _ _ Hrun)
      as [[key Hkey] | [_ (e & He & _)]]; [| done].
    apply (get_session_token_cached w2 sc region2 serial2 token2 key); [done | | done].
    destruct (mfa_outcome_total w1 serial1 token1) as (pre & tok & Hmfa).
    destruct (get_session_token_trace w1 sc region1 serial1 token1 ignore1 files
                key pre tok Hkey Hmfa) as (res & files' & tr & Hgo & Hcase).
    rewrite Hgo in Hrun. apply pair_equal_spec in Hrun as [-> <-]. state_proj.
    split_cases Hcase;
      match goal with
      | H : Ok _ = Raised _ |- _ => discriminate H
      | H : Ok _ = Ok _ |- _ => injection H as ->
      end.
    + done.
    + unfold cache_after_write. rewrite Hdisk. apply cached_session_insert.
Qed.

Lemma get_session_token_uses_valid_cache_witness :
  (exists tr,
     run (get_session_token sample_world sample_source "us-east-1" None None false)
       sample_files
     = (Ok (VDict sample_cached), State sample_files tr)
     /\ remote_calls tr = 0%nat)
  /\
  (let first :=
     run (get_session_token sample_world sample_source "us-east-1" None None false) ∅ in
   let session :=
     VDict (localized sample_world "us-east-1" sample_credentials sample_expiration) in
   exists tr,
     run (get_session_token sample_world sample_source "us-east-1" None None false)
       (cache (snd first))
     = (Ok session, State (cache (snd first)) tr)
     /\ remote_calls tr = 0%nat).
Proof.
  split.
  - apply (proj1 get_session_token_uses_valid_cache sample_world sample_source
             "us-east-1" None None "AKIA_TEST" sample_cached sample_files);
      by vm_compute.
  - apply (proj2 get_session_token_uses_valid_cache sample_world sample_world
             sample_source "us-east-1" None None false "us-east-1" None None ∅).
    + by vm_compute.
    + reflexivity.
    + by vm_compute.
Defined.

(** C2. Without an MFA serial [get_session_token] still passes both
    [SerialNumber] and [TokenCode] to the remote call, each as [None];
    [assume_role], on the same input, passes neither. *)
Theorem get_session_token_passes_None_without_mfa :
  (exists c kwargs,
     trace (snd (run (get_session_token sample_world sample_source "us-east-1"
                        None None false) ∅)) !! 2%nat
     = Some (EvGetSessionToken c kwargs)
     /\ kwargs !! "SerialNumber" = Some VNone
     /\ kwargs !! "TokenCode" = Some VNone)
  /\
  (exists c kwargs,
     trace (snd (run (assume_role sample_world sample_source "arn:aws:iam::1:role/r"
                        "session" "us-east-1" None None None None) ∅)) !! 2%nat
     = Some (EvAssumeRole c kwargs)
     /\ kwargs !! "SerialNumber" = None
     /\ kwargs !! "TokenCode" = None).
Proof.
  split.
  - exists (client_config sample_source (VStr "us-east-1")),
      (get_session_token_kwargs None None).
    by vm_compute.
  - exists (client_config sample_source (VStr "us-east-1")),
      (assume_role_kwargs "arn:aws:iam::1:role/r" "session" None None None None).
    by vm_compute.
Qed.



(** C4. Whatever fails in the [try] of [assume_role] (the prompt, the
    remote call, the handling of its response), [assume_role] raises
    [RoleAuthenticationError] with the message of that error; the
    remote service is called at most once. The client is built before
    the [try]: when boto3 refuses to build it, its error comes out as
    it is and the service is not called. *)
Theorem assume_role_failure_is_RoleAuthenticationError w sc role_arn session_name
    region external_id role_duration mfa_serial mfa_token files res st' :
  run (assume_role w sc role_arn session_name region external_id role_duration
         mfa_serial mfa_token) files = (res, st') ->
  let c := client_config sc (VStr region) in
  (client_error w c = None ->
   (forall e, res = Raised e -> is_Exception e = true ->
              exn_class_of e = RoleAuthenticationError)
   /\ (forall e st1,
         assume_role_try w c role_arn session_name region external_id role_duration
           mfa_serial mfa_token
           (State files [EvLog ("Assuming role: " ++ role_arn);
                         EvLog ("Session name: " ++ session_name)])
         = (Raised e, st1) ->
         is_Exception e = true ->
         res = Raised (Exn RoleAuthenticationError (exn_str e))))
  /\ (forall c' kwargs e,
        In (EvAssumeRole c' kwargs) (trace st') ->
        assume_role_answer w c' kwargs = inl e ->
        is_Exception e = true ->
        res = Raised (Exn RoleAuthenticationError (exn_str e)))
  /\ (forall e, client_error w c = Some e ->
                res = Raised e /\ remote_calls (trace st') = 0%nat)
  /\ (remote_calls (trace st') <= 1)%nat.
Proof.
  intros Hrun c.
  assert (Hst : st' = snd (run (assume_role w sc role_arn session_name region
                                  external_id role_duration mfa_serial mfa_token)
                             files)) by (by rewrite Hrun).
  split_and!.
  - intros Hc. split.
    + destruct (mfa_outcome_total w mfa_serial mfa_token) as (pre & tok & Hmfa).
      destruct (assume_role_trace w sc role_arn session_name region external_id
                  role_duration mfa_serial mfa_token files pre tok Hmfa)
        as (res' & tr & Hgo & Hcase).
      rewrite Hgo in Hrun. apply pair_equal_spec in Hrun as [<- _].
      cbn zeta in Hcase. fold c in Hcase. rewrite Hc in Hcase.
      intros e He Hexc.
      split_cases Hcase; try discriminate He; injection He as <-;
        first [reflexivity | by eapply reraised_class].
    + intros e st1 Htry Hexc.
      apply (assume_role_except w _ _ _ _ _ _ _ _ _ _ _ Hc) in Htry.
      rewrite Htry in Hrun. apply pair_equal_spec in Hrun as [<- _].
      by rewrite reraised_Exception.
  - intros c' kwargs e Hin Ha Hexc. rewrite Hst in Hin.
    apply assume_role_call in Hin as (pre & token & Hmfa & -> & -> & Hc).
    destruct (assume_role_trace w sc role_arn session_name region external_id
                role_duration mfa_serial mfa_token files pre (Ok token) Hmfa)
      as (res' & tr & Hgo & Hcase).
    cbn zeta in Hcase. rewrite Hc, Ha in Hcase. destruct Hcase as [-> _].
    rewrite Hgo in Hrun. apply pair_equal_spec in Hrun as [<- _].
    by rewrite reraised_Exception.
  - intros e Hc.
    rewrite (assume_role_refused w _ _ _ _ _ _ _ _ _ _ Hc) in Hrun.
    by apply pair_equal_spec in Hrun as [<- <-].
  - destruct (mfa_outcome_total w mfa_serial mfa_token) as (pre & tok & Hmfa).
    destruct (assume_role_trace w sc role_arn session_name region external_id
                role_duration mfa_serial mfa_token files pre tok Hmfa)
      as (res' & tr & Hgo & Hcase).
    rewrite Hgo in Hrun. apply pair_equal_spec in Hrun as [_ <-]. state_proj.
    destruct Hmfa; split_cases Hcase; count_events; cbn; lia.
Qed.

Lemma assume_role_failure_is_RoleAuthenticationError_witness :
  let r := run (assume_role denying_world sample_source "arn:aws:iam::1:role/r"
                  "session" "us-east-1" None None None None) ∅ in
  fst r = Raised (Exn RoleAuthenticationError "AccessDenied")
  /\ (remote_calls (trace (snd r)) <= 1)%nat.
Proof.
  intros r.
  destruct (assume_role_failure_is_RoleAuthenticationError denying_world
              sample_source "arn:aws:iam::1:role/r" "session" "us-east-1"
              None None None None ∅ (fst r) (snd r))
    as (_ & Hremote & _ & Hcalls); [by vm_compute |].
  split; [| exact Hcalls].
  apply (Hremote (client_config sample_source (VStr "us-east-1"))
           (assume_role_kwargs "arn:aws:iam::1:role/r" "session" None None None None)
           (Exn (LibraryError "ClientError") "AccessDenied")).
  - vm_compute. right. right. by left.
  - reflexivity.
  - reflexivity.
Defined.

(** C5. [get_account_id] never raises: it returns a value and leaves the
    cache alone, whatever boto3 and the service do. It builds its
    client with the region of the credentials, or ['us-east-1'] when
    they have none; it makes one call through that client when boto3
    builds it, and none when boto3 refuses; it returns ['Unavailable']
    when the call raises anything and when the client is refused. *)
Theorem get_account_id_never_raises w credentials files :
  let c :=
    StsClient (dict_get credentials "AccessKeyId")
      (dict_get credentials "SecretAccessKey")
      (dict_get credentials "SessionToken")
      (match credentials !! "Region" with
       | Some region => region
       | None => VStr "us-east-1"
       end) in
  exists account,
    run (get_account_id w credentials) files
    = (Ok account,
       State files
         match client_error w c with
         | None => [EvGetCallerIdentity c]
         | Some _ => []
         end)
    /\ (forall e, get_caller_identity_answer w c = inl e ->
                  account = VStr "Unavailable")
    /\ (forall e, client_error w c = Some e -> account = VStr "Unavailable").
Proof.
  intros c.
  assert (Hc : c = client_config credentials
                     (dict_get_default credentials "Region" (VStr "us-east-1"))).
  { unfold c, client_config, dict_get_default.
    by destruct (credentials !! "Region"). }
  rewrite Hc, get_account_id_run. cbn zeta.
  destruct (client_error w _) as [e0 |].
  - exists (VStr "Unavailable"). by split_and!.
  - eexists. split_and!; [reflexivity | by intros e -> | done].
Qed.

Lemma get_account_id_never_raises_witness :
  fst (run (get_account_id denying_world sample_source) ∅) = Ok (VStr "Unavailable")
  /\ run (get_account_id checking_world
            (<["Region" := VStr "not a region"]> sample_source)) ∅
     = (Ok (VStr "Unavailable"), State ∅ []).
Proof.
  split.
  - destruct (get_account_id_never_raises denying_world sample_source ∅)
      as (account & Hrun & Herror & _).
    rewrite Hrun.
    by rewrite (Herror (Exn (LibraryError "ClientError") "AccessDenied") eq_refl).
  - destruct (get_account_id_never_raises checking_world
                (<["Region" := VStr "not a region"]> sample_source) ∅)
      as (account & Hrun & _ & Hrefused).
    rewrite Hrun. by rewrite (Hrefused InvalidRegionError eq_refl).
Defined.

(** C6. When the remote call of [get_session_token] succeeds and the
    storage refuses the write of the cache file, the call still returns
    the credentials it fetched; the cache is left as it was. *)
Theorem get_session_token_survives_cache_write_failure w sc region mfa_serial
    mfa_token ignore_cache files res st' c kwargs response creds expiration :
  run (get_session_token w sc region mfa_serial mfa_token ignore_cache) files
  = (res, st') ->
  In (EvGetSessionToken c kwargs) (trace st') ->
  get_session_token_answer w c kwargs = inr (VDict response) ->
  response !! "Credentials" = Some (VDict creds) ->
  creds !! "Expiration" = Some (VDatetime expiration) ->
  (forall name, disk_write_fails w name = true) ->
  res = Ok (VDict (<["Region" := VStr region]>
                     (<["Expiration" := VDatetime (to_local w expiration)]> creds)))
  /\ cache st' = files.
Proof.
  intros Hrun Hin Ha Hc He Hdisk.
  destruct (get_session_token_fresh w _ _ _ _ _ _ _ _ _ _ _ creds expiration
              Hrun Hin Ha)
    as (key & pre & _ & _ & -> & -> & _); [by eapply credentials_of_Some |].
  split; [done |]. unfold cache_after_write. by rewrite Hdisk.
Qed.

Lemma get_session_token_survives_cache_write_failure_witness :
  let r := run (get_session_token read_only_world sample_source "eu-west-1"
                  None None false) ∅ in
  fst r = Ok (VDict (<["Region" := VStr "eu-west-1"]>
                       (<["Expiration" := VDatetime (Datetime 1700003600000000 3600)]>
                          sample_credentials)))
  /\ cache (snd r) = ∅.
Proof.
  intros r.
  apply (get_session_token_survives_cache_write_failure read_only_world
           sample_source "eu-west-1" None None false ∅ (fst r) (snd r)
           (client_config sample_source (VStr "eu-west-1"))
           (get_session_token_kwargs None None)
           (<["Credentials" := VDict sample_credentials]> ∅)
           sample_credentials sample_expiration).
  - apply surjective_pairing.
  - vm_compute. right. right. by left.
  - reflexivity.
  - by vm_compute.
  - by vm_compute.
  - reflexivity.
Defined.
(** C7. With an MFA serial and no token, [assume_role] prompts once,
    right before the remote call, and passes what the prompt returns as
    [TokenCode]: so for every remote call found in the trace, and, when
    boto3 builds the client, for every run; with a token it does not
    prompt. When boto3 refuses the client, which is built first, there
    is neither a prompt nor a call. *)
Theorem assume_role_prompts_once w sc role_arn session_name region external_id
    role_duration mfa_serial mfa_token files res st' :
  run (assume_role w sc role_arn session_name region external_id role_duration
         mfa_serial mfa_token) files = (res, st') ->
  truthy (of_str mfa_serial) = true ->
  let c := client_config sc (VStr region) in
  (truthy (of_str mfa_token) = false ->
   (forall c' kwargs,
      In (EvAssumeRole c' kwargs) (trace st') ->
      exists before token after,
        trace st' = (before ++ EvPrompt :: EvAssumeRole c' kwargs :: after)%list
        /\ prompts before = 0%nat /\ remote_calls before = 0%nat
        /\ prompts after = 0%nat /\ remote_calls after = 0%nat
        /\ get_mfa_token_answer w = inr token
        /\ kwargs !! "SerialNumber" = Some (of_str mfa_serial)
        /\ kwargs !! "TokenCode" = Some (VStr token))
   /\ (client_error w c = None ->
       prompts (trace st') = 1%nat
       /\ (forall token,
             get_mfa_token_answer w = inr token ->
             exists before kwargs after,
               trace st' = (before ++ EvPrompt :: EvAssumeRole c kwargs :: after)%list
               /\ remote_calls before = 0%nat
               /\ remote_calls after = 0%nat
               /\ kwargs !! "SerialNumber" = Some (of_str mfa_serial)
               /\ kwargs !! "TokenCode" = Some (VStr token))
       /\ (forall e, get_mfa_token_answer w = inl e ->
                     remote_calls (trace st') = 0%nat))
   /\ (forall e, client_error w c = Some e ->
                 prompts (trace st') = 0%nat /\ remote_calls (trace st') = 0%nat))
  /\ (truthy (of_str mfa_token) = true ->
      prompts (trace st') = 0%nat
      /\ (forall c' kwargs,
            In (EvAssumeRole c' kwargs) (trace st') ->
            kwargs !! "TokenCode" = Some (of_str mfa_token))
      /\ (client_error w c = None ->
          exists before kwargs after,
            trace st' = (before ++ EvAssumeRole c kwargs :: after)%list
            /\ remote_calls before = 0%nat
            /\ remote_calls after = 0%nat
            /\ kwargs !! "TokenCode" = Some (of_str mfa_token))).
Proof.
  intros Hrun Hserial c.
  destruct (mfa_outcome_total w mfa_serial mfa_token) as (pre & tok & Hmfa).
  destruct (assume_role_trace w sc role_arn session_name region external_id
              role_duration mfa_serial mfa_token files pre tok Hmfa)
    as (res' & tr & Hgo & Hcase).
  rewrite Hgo in Hrun. apply pair_equal_spec in Hrun as [_ <-]. state_proj.
  cbn zeta in Hcase. fold c in Hcase.
  destruct Hmfa as [Hs | Hs Ht | token Hs Ht Ha | e Hs Ht Ha];
    [by rewrite Hserial in Hs | | |].
  - (* the token is an argument *)
    split; [by rewrite Ht |]. intros _.
    destruct (assume_role_kwargs_mfa role_arn session_name external_id role_duration
                mfa_serial (of_str mfa_token)) as (Htoken & _).
    split_and!.
    + split_cases Hcase; count_events.
    + intros c' kwargs Hin.
      split_cases Hcase; repeat destruct Hin as [Hin | Hin]; try done;
        by injection Hin as <- <-.
    + intros Hc. rewrite Hc in Hcase.
      split_cases Hcase; eexists [_; _], _, _; (split; [reflexivity |]);
        by split_and!.
  - (* the prompt returns a token *)
    split; [| by rewrite Ht]. intros _.
    destruct (assume_role_kwargs_mfa role_arn session_name external_id role_duration
                mfa_serial (VStr token)) as (Htoken & Hserial').
    split_and!.
    + intros c' kwargs Hin.
      split_cases Hcase; repeat destruct Hin as [Hin | Hin]; try done;
        injection Hin as <- <-; eexists [_; _], token, _;
        (split; [reflexivity |]); by split_and!.
    + intros Hc. rewrite Hc in Hcase.
      split_cases Hcase;
        (split_and!; [count_events | | intros e' He'; by rewrite Ha in He']);
        intros token' Htoken'; rewrite Ha in Htoken'; injection Htoken' as <-;
        eexists [_; _], _, _; (split; [reflexivity |]); by split_and!.
    + intros e Hc. rewrite Hc in Hcase. by destruct Hcase as [_ ->].
  - (* the prompt raises *)
    split; [| by rewrite Ht]. intros _.
    split_and!.
    + intros c' kwargs Hin.
      split_cases Hcase; repeat destruct Hin as [Hin | Hin]; done.
    + intros Hc. rewrite Hc in Hcase. destruct Hcase as [_ ->].
      split_and!; [reflexivity | | reflexivity].
      intros token Htoken. by rewrite Ha in Htoken.
    + intros e' Hc. rewrite Hc in Hcase. by destruct Hcase as [_ ->].
Qed.

Lemma assume_role_prompts_once_witness :
  let st' := snd (run (assume_role sample_world sample_source "arn:aws:iam::1:role/r"
                         "session" "us-east-1" None None
                         (Some "arn:aws:iam::1:mfa/u") None) ∅) in
  prompts (trace st') = 1%nat
  /\ exists before kwargs after,
       trace st'
       = (before ++
          EvPrompt ::
          EvAssumeRole (client_config sample_source (VStr "us-east-1")) kwargs ::
          after)%list
       /\ remote_calls before = 0%nat
       /\ remote_calls after = 0%nat
       /\ kwargs !! "SerialNumber" = Some (VStr "arn:aws:iam::1:mfa/u")
       /\ kwargs !! "TokenCode" = Some (VStr "123456").
Proof.
  intros st'.
  destruct (assume_role_prompts_once sample_world sample_source
              "arn:aws:iam::1:role/r" "session" "us-east-1" None None
              (Some "arn:aws:iam::1:mfa/u") None ∅ _ st' (surjective_pairing _)
              eq_refl) as [Hprompt _].
  destruct (Hprompt eq_refl) as (_ & Hbuilt & _).
  destruct (Hbuilt eq_refl) as (Hone & Htoken & _).
  split; [exact Hone | exact (Htoken "123456" eq_refl)].
Defined.

(** C8. When the remote call of [get_session_token] succeeds, the
    result has the expiration in the local time zone and the region of
    the request, and it is written to the cache under
    ['aws-credentials-' + AccessKeyId], over whatever was there. *)
Theorem get_session_token_fresh_result w sc region mfa_serial mfa_token ignore_cache
    files res st' c kwargs response creds expiration :
  run (get_session_token w sc region mfa_serial mfa_token ignore_cache) files
  = (res, st') ->
  In (EvGetSessionToken c kwargs) (trace st') ->
  get_session_token_answer w c kwargs = inr (VDict response) ->
  response !! "Credentials" = Some (VDict creds) ->
  creds !! "Expiration" = Some (VDatetime expiration) ->
  exists key session,
    sc !! "AccessKeyId" = Some (VStr key)
    /\ res = Ok (VDict session)
    /\ session !! "Expiration"
       = Some (VDatetime (Datetime (dt_instant expiration)
                            (tzlocal w (dt_instant expiration))))
    /\ session !! "Region" = Some (VStr region)
    /\ (forall field, field <> "Expiration" -> field <> "Region" ->
                      session !! field = creds !! field)
    /\ In (EvCacheWrite (cache_prefix ++ key) (VDict session)) (trace st')
    /\ (disk_write_fails w (cache_prefix ++ key) = false ->
        cache st' = <[cache_prefix ++ key := Serialized session]> files).
Proof.
  intros Hrun Hin Ha Hc He.
  destruct (get_session_token_fresh w _ _ _ _ _ _ _ _ _ _ _ creds expiration
              Hrun Hin Ha)
    as (key & pre & Hkey & _ & -> & -> & ->); [by eapply credentials_of_Some |].
  exists key, (localized w region creds expiration).
  split_and!; [done | done | apply localized_Expiration | apply localized_Region
              | | |].
  - intros field H1 H2. unfold localized. by rewrite !lookup_insert_ne.
  - right. right. rewrite !in_app_iff. right. right. left. apply write_events_In.
  - intros Hdisk. unfold cache_after_write. by rewrite Hdisk.
Qed.

Lemma get_session_token_fresh_result_witness :
  let r := run (get_session_token sample_world sample_source "eu-west-1"
                  None None true) sample_files in
  exists session,
    fst r = Ok (VDict session)
    /\ session !! "Expiration" = Some (VDatetime (Datetime 1700003600000000 3600))
    /\ session !! "Region" = Some (VStr "eu-west-1")
    /\ cache (snd r) = <["aws-credentials-AKIA_TEST" := Serialized session]> sample_files.
Proof.
  intros r.
  destruct (get_session_token_fresh_result sample_world
              sample_source "eu-west-1" None None true sample_files (fst r) (snd r)
              (client_config sample_source (VStr "eu-west-1"))
              (get_session_token_kwargs None None)
              (<["Credentials" := VDict sample_credentials]> ∅)
              sample_credentials sample_expiration)
    as (key & session & Hkey & Hres & Hexp & Hregion & _ & _ & Hcache).
  - apply surjective_pairing.
  - vm_compute. right. right. by left.
  - reflexivity.
  - by vm_compute.
  - by vm_compute.
  - exists session. split_and!; [done | done | done |].
    assert (key = "AKIA_TEST") as -> by (vm_compute in Hkey; congruence).
    by apply Hcache.
Defined.

(** C9. When the call succeeds and the response has no ['Account'],
    [get_account_id] returns ['Unavailable']. *)
Theorem get_account_id_without_Account w credentials files res st' c response :
  run (get_account_id w credentials) files = (res, st') ->
  In (EvGetCallerIdentity c) (trace st') ->
  get_caller_identity_answer w c = inr (VDict response) ->
  response !! "Account" = None ->
  res = Ok (VStr "Unavailable").
Proof.
  intros Hrun Hin Ha Hnone.
  rewrite get_account_id_run in Hrun. cbn zeta in Hrun.
  destruct (client_error w _);
    apply pair_equal_spec in Hrun as [<- <-]; state_proj; [done |].
  destruct Hin as [[= <-] | []].
  rewrite Ha. unfold dict_get_default. by rewrite Hnone.
Qed.

Lemma get_account_id_without_Account_witness :
  fst (run (get_account_id read_only_world sample_source) ∅)
  = Ok (VStr "Unavailable").
Proof.
  apply (get_account_id_without_Account read_only_world sample_source ∅ _
           (snd (run (get_account_id read_only_world sample_source) ∅))
           (client_config sample_source (VStr "us-east-1")) ∅).
  - by vm_compute.
  - vm_compute. by left.
  - reflexivity.
  - reflexivity.
Defined.

(** C10. Source credentials without [AccessKeyId] make
    [get_session_token] fail on the cache key, before the cache is read
    or the service called, with an error that is not a
    [UserAuthenticationError]. *)
Theorem get_session_token_without_AccessKeyId w sc region mfa_serial mfa_token
    ignore_cache files :
  sc !! "AccessKeyId" = None ->
  exists e,
    run (get_session_token w sc region mfa_serial mfa_token ignore_cache) files
    = (Raised e, State files [])
    /\ exn_class_of e = TypeError
    /\ exn_class_of e <> UserAuthenticationError.
Proof.
  intros Hnone.
  destruct (get_session_token_key_error w sc region mfa_serial mfa_token
              ignore_cache files) as (e & Hrun & Hcls).
  - intros key. by rewrite Hnone.
  - exists e. split_and!; [done | done | by rewrite Hcls].
Qed.

Lemma get_session_token_without_AccessKeyId_witness :
  exists e,
    run (get_session_token sample_world (<["SecretAccessKey" := VStr "secret"]> ∅)
           "us-east-1" None None false) sample_files
    = (Raised e, State sample_files [])
    /\ exn_class_of e = TypeError
    /\ exn_class_of e <> UserAuthenticationError.
Proof.
  apply (get_session_token_without_AccessKeyId sample_world
           (<["SecretAccessKey" := VStr "secret"]> ∅) "us-east-1" None None false
           sample_files).
  reflexivity.
Defined.

(** ** Further properties of [aws.py] *)

(** *** [assume_role] *)

(** X1. [assume_role] never consults the cache: it leaves the cache
    files as they were and neither reads nor writes one. *)
Theorem assume_role_never_touches_cache w sc role_arn session_name region external_id
    role_duration mfa_serial mfa_token files :
  let st' := snd (run (assume_role w sc role_arn session_name region external_id
                         role_duration mfa_serial mfa_token) files) in
  cache st' = files
  /\ cache_reads (trace st') = 0%nat
  /\ cache_writes (trace st') = 0%nat.
Proof.
  destruct (mfa_outcome_total w mfa_serial mfa_token) as (pre & tok & Hmfa).
  destruct (assume_role_trace w sc role_arn session_name region external_id
              role_duration mfa_serial mfa_token files pre tok Hmfa)
    as (res & tr & Hrun & Hcase).
  cbn zeta. rewrite Hrun. cbn [snd]. state_proj.
  destruct Hmfa; split_cases Hcase; done.
Qed.

(** X2. [assume_role] has no cached path: when boto3 builds the client,
    and unless the MFA prompt it needs raises, every call makes exactly
    one remote call, through the client built from the source
    credentials and the region. It never makes more than one, and none
    when boto3 refuses the client. *)
Theorem assume_role_always_calls_remote w sc role_arn session_name region external_id
    role_duration mfa_serial mfa_token files :
  let c :=
    StsClient (dict_get sc "AccessKeyId") (dict_get sc "SecretAccessKey")
      (dict_get sc "SessionToken") (VStr region) in
  let st' := snd (run (assume_role w sc role_arn session_name region external_id
                         role_duration mfa_serial mfa_token) files) in
  (remote_calls (trace st') <= 1)%nat
  /\ (client_error w c = None ->
      (truthy (of_str mfa_serial) = true -> truthy (of_str mfa_token) = false ->
       exists token, get_mfa_token_answer w = inr token) ->
      remote_calls (trace st') = 1%nat
      /\ exists kwargs, In (EvAssumeRole c kwargs) (trace st'))
  /\ (forall e, client_error w c = Some e -> remote_calls (trace st') = 0%nat).
Proof.
  intros c.
  destruct (mfa_outcome_total w mfa_serial mfa_token) as (pre & tok & Hmfa).
  destruct (assume_role_trace w sc role_arn session_name region external_id
              role_duration mfa_serial mfa_token files pre tok Hmfa)
    as (res & tr & Hrun & Hcase).
  cbn zeta. rewrite Hrun. cbn [snd]. state_proj.
  cbn zeta in Hcase. change (client_config sc (VStr region)) with c in Hcase.
  split_and!.
  - destruct Hmfa; split_cases Hcase; count_events; cbn; lia.
  - intros Hc Hprompt. rewrite Hc in Hcase.
    destruct Hmfa as [Hs | Hs Ht | token Hs Ht Ha | e Hs Ht Ha].
    4: { destruct (Hprompt Hs Ht) as (token & Htoken). by rewrite Htoken in Ha. }
    all: split_cases Hcase; (split; [reflexivity |]); eexists;
      rewrite !in_app_iff; right; right; by left.
  - intros e Hc. rewrite Hc in Hcase. by destruct Hcase as [_ ->].
Qed.

Lemma assume_role_always_calls_remote_witness :
  remote_calls
    (trace (snd (run (assume_role sample_world ∅ "arn:aws:iam::1:role/r" "session"
                        "eu-west-1" None None (Some "arn:aws:iam::1:mfa/u") None)
                   sample_files))) = 1%nat.
Proof.
  destruct (assume_role_always_calls_remote sample_world ∅ "arn:aws:iam::1:role/r"
              "session" "eu-west-1" None None (Some "arn:aws:iam::1:mfa/u") None
              sample_files) as (_ & Hcall & _).
  apply Hcall; [reflexivity |].
  intros _ _. by exists "123456".
Defined.

(** X3. The remote call of [assume_role] always carries [RoleArn] and
    [RoleSessionName]; it carries [ExternalId] only for a non-empty
    external id and [DurationSeconds] only for a non-zero duration. *)
Theorem assume_role_optional_kwargs w sc role_arn session_name region external_id
    role_duration mfa_serial mfa_token files c kwargs :
  In (EvAssumeRole c kwargs)
    (trace (snd (run (assume_role w sc role_arn session_name region external_id
                        role_duration mfa_serial mfa_token) files))) ->
  kwargs !! "RoleArn" = Some (VStr role_arn)
  /\ kwargs !! "RoleSessionName" = Some (VStr session_name)
  /\ kwargs !! "ExternalId"
     = match external_id with
       | Some s => if String.eqb s "" then None else Some (VStr s)
       | None => None
       end
  /\ kwargs !! "DurationSeconds"
     = match role_duration with
       | Some n => if Z.eqb n 0 then None else Some (VInt n)
       | None => None
       end.
Proof.
  intros Hin. apply assume_role_call in Hin as (pre & token & _ & _ & -> & _).
  unfold assume_role_kwargs.
  destruct token, external_id as [s|], role_duration as [n|]; cbn [of_str of_int truthy];
    try destruct (String.eqb s ""); try destruct (Z.eqb n 0); cbn [negb];
    by rewrite ?lookup_insert_ne, ?lookup_insert_eq, ?lookup_empty by done.
Qed.

Lemma assume_role_optional_kwargs_witness :
  let kwargs :=
    <["RoleArn" := VStr "arn:aws:iam::1:role/r"]>
      (<["RoleSessionName" := VStr "session"]> ∅) : dict in
  kwargs !! "ExternalId" = None /\ kwargs !! "DurationSeconds" = None.
Proof.
  intros kwargs.
  destruct (assume_role_optional_kwargs sample_world sample_source
              "arn:aws:iam::1:role/r" "session" "us-east-1" (Some "") (Some 0)
              None None ∅ (client_config sample_source (VStr "us-east-1")) kwargs)
    as (_ & _ & Hid & Hduration).
  - vm_compute. right. right. by left.
  - by split.
Defined.

(** X4. Without an MFA serial [assume_role] ignores the MFA token it is
    given: it does not prompt and passes neither [SerialNumber] nor
    [TokenCode]. *)
Theorem assume_role_token_without_serial w sc role_arn session_name region external_id
    role_duration mfa_serial mfa_token files :
  truthy (of_str mfa_serial) = false ->
  let st' := snd (run (assume_role w sc role_arn session_name region external_id
                         role_duration mfa_serial mfa_token) files) in
  prompts (trace st') = 0%nat
  /\ forall c kwargs,
       In (EvAssumeRole c kwargs) (trace st') ->
       kwargs !! "SerialNumber" = None /\ kwargs !! "TokenCode" = None.
Proof.
  intros Hserial. cbn zeta. split.
  - destruct (mfa_outcome_total w mfa_serial mfa_token) as (pre & tok & Hmfa).
    destruct (assume_role_trace w sc role_arn session_name region external_id
                role_duration mfa_serial mfa_token files pre tok Hmfa)
      as (res & tr & Hrun & Hcase).
    rewrite Hrun. cbn [snd]. state_proj.
    destruct Hmfa as [Hs | Hs Ht | token Hs Ht Ha | e Hs Ht Ha];
      try (by rewrite Hserial in Hs).
    split_cases Hcase; done.
  - intros c kwargs Hin.
    apply assume_role_call in Hin as (pre & token & Hmfa & _ & -> & _).
    inversion Hmfa as [Hs | Hs Ht | ? Hs Ht Ha |]; subst;
      try (by rewrite Hserial in Hs).
    unfold assume_role_kwargs.
    destruct (truthy (of_str external_id)), (truthy (of_int role_duration));
      by rewrite ?lookup_insert_ne, ?lookup_empty by done.
Qed.

Lemma assume_role_token_without_serial_witness :
  prompts
    (trace (snd (run (assume_role sample_world sample_source "arn:aws:iam::1:role/r"
                        "session" "us-east-1" None None None (Some "123456")) ∅)))
  = 0%nat.
Proof.
  apply (assume_role_token_without_serial sample_world sample_source
           "arn:aws:iam::1:role/r" "session" "us-east-1" None None None
           (Some "123456") ∅).
  reflexivity.
Defined.

(** X5. When the remote call of [assume_role] answered with credentials
    and [assume_role] returns, what it returns is those credentials
    with the expiration moved to the local time zone and the region of
    the request, and the last thing printed is that local expiration,
    as [strftime] of the platform writes it for [time_format]. *)
Theorem assume_role_result w sc role_arn session_name region external_id role_duration
    mfa_serial mfa_token files c kwargs response creds expiration v :
  let r := run (assume_role w sc role_arn session_name region external_id
                  role_duration mfa_serial mfa_token) files in
  In (EvAssumeRole c kwargs) (trace (snd r)) ->
  assume_role_answer w c kwargs = inr (VDict response) ->
  response !! "Credentials" = Some (VDict creds) ->
  creds !! "Expiration" = Some (VDatetime expiration) ->
  fst r = Ok v ->
  let local := Datetime (dt_instant expiration) (tzlocal w (dt_instant expiration)) in
  exists session before,
    v = VDict session
    /\ session !! "Expiration" = Some (VDatetime local)
    /\ session !! "Region" = Some (VStr region)
    /\ (forall field, field <> "Expiration" -> field <> "Region" ->
                      session !! field = creds !! field)
    /\ trace (snd r)
       = (before ++
          [EvPrint (Fore_GREEN ++ "Role credentials will expire " ++
                    strftime_answer w time_format local)])%list.
Proof.
  intros r Hin Ha Hc He Hres local.
  apply assume_role_call in Hin as (pre & token & Hmfa & -> & -> & Hclient).
  destruct (assume_role_trace w sc role_arn session_name region external_id
              role_duration mfa_serial mfa_token files pre (Ok token) Hmfa)
    as (res & tr & Hrun & Hcase).
  cbn zeta in Hcase.
  rewrite Hclient, Ha, (credentials_of_Some _ _ _ _ eq_refl Hc He) in Hcase.
  destruct Hcase as [-> ->]. unfold r in *. rewrite Hrun in *.
  cbn [fst snd] in *. state_proj. injection Hres as <-.
  exists (localized w region creds expiration),
    ([EvLog ("Assuming role: " ++ role_arn); EvLog ("Session name: " ++ session_name)] ++
     pre ++
     [EvAssumeRole (client_config sc (VStr region))
        (assume_role_kwargs role_arn session_name external_id role_duration
           mfa_serial token);
      EvLog "Role credentials received"])%list.
  split_and!; [done | apply localized_Expiration | apply localized_Region | |].
  - intros field H1 H2. unfold localized. by rewrite !lookup_insert_ne.
  - by rewrite <- !app_assoc.
Qed.

Lemma assume_role_result_witness :
  let r := run (assume_role sample_world sample_source "arn:aws:iam::1:role/r"
                  "session" "eu-west-1" None None None None) ∅ in
  exists session before,
    fst r = Ok (VDict session)
    /\ session !! "Region" = Some (VStr "eu-west-1")
    /\ trace (snd r)
       = (before ++
          [EvPrint (Fore_GREEN ++ "Role credentials will expire 2023-11-15 00:13:20")])%list.
Proof.
  intros r.
  destruct (assume_role_result sample_world sample_source "arn:aws:iam::1:role/r"
              "session" "eu-west-1" None None None None ∅
              (client_config sample_source (VStr "eu-west-1"))
              (assume_role_kwargs "arn:aws:iam::1:role/r" "session" None None None None)
              (<["Credentials" := VDict sample_credentials]> ∅)
              sample_credentials sample_expiration
              (VDict (localized sample_world "eu-west-1" sample_credentials
                        sample_expiration)))
    as (session & before & Hres & _ & Hregion & _ & Htrace).
  - vm_compute. right. right. by left.
  - reflexivity.
  - by vm_compute.
  - by vm_compute.
  - by vm_compute.
  - exists session, before. split_and!; [| exact Hregion | exact Htrace].
    unfold r. rewrite <- Hres. by vm_compute.
Defined.

(** X6. What is not an [Exception] (a keyboard interrupt, a system
    exit) leaves [assume_role] as it is, not as a
    [RoleAuthenticationError]: raised by the remote call, or, once
    boto3 has built the client, by the prompt, after which the remote
    service is not called. *)
Theorem assume_role_lets_interrupts_through w sc role_arn session_name region
    external_id role_duration mfa_serial mfa_token files e :
  is_Exception e = false ->
  let r := run (assume_role w sc role_arn session_name region external_id
                  role_duration mfa_serial mfa_token) files in
  (forall c kwargs,
     In (EvAssumeRole c kwargs) (trace (snd r)) ->
     assume_role_answer w c kwargs = inl e ->
     fst r = Raised e)
  /\ (client_error w (client_config sc (VStr region)) = None ->
      truthy (of_str mfa_serial) = true -> truthy (of_str mfa_token) = false ->
      get_mfa_token_answer w = inl e ->
      fst r = Raised e
      /\ prompts (trace (snd r)) = 1%nat
      /\ remote_calls (trace (snd r)) = 0%nat).
Proof.
  intros Hexc r. split.
  - intros c kwargs Hin Ha.
    apply assume_role_call in Hin as (pre & token & Hmfa & -> & -> & Hc).
    destruct (assume_role_trace w sc role_arn session_name region external_id
                role_duration mfa_serial mfa_token files pre (Ok token) Hmfa)
      as (res & tr & Hrun & Hcase).
    cbn zeta in Hcase. rewrite Hc, Ha in Hcase. destruct Hcase as [-> _].
    unfold r. rewrite Hrun. cbn [fst]. unfold reraised. by rewrite Hexc.
  - intros Hc Hs Ht Ha.
    destruct (assume_role_trace w sc role_arn session_name region external_id
                role_duration mfa_serial mfa_token files [EvPrompt] (Raised e)
                (mfa_prompt_failed w _ _ e Hs Ht Ha))
      as (res & tr & Hrun & Hcase).
    cbn zeta in Hcase. rewrite Hc in Hcase. destruct Hcase as [-> ->].
    unfold r. rewrite Hrun. cbn [fst snd]. state_proj.
    unfold reraised. by rewrite Hexc.
Qed.

Lemma assume_role_lets_interrupts_through_witness :
  let r := run (assume_role interrupted_world sample_source "arn:aws:iam::1:role/r"
                  "session" "us-east-1" None None (Some "arn:aws:iam::1:mfa/u") None)
             ∅ in
  fst r = Raised (Exn KeyboardInterrupt "") /\ remote_calls (trace (snd r)) = 0%nat.
Proof.
  intros r.
  destruct (assume_role_lets_interrupts_through interrupted_world sample_source
              "arn:aws:iam::1:role/r" "session" "us-east-1" None None
              (Some "arn:aws:iam::1:mfa/u") None ∅ (Exn KeyboardInterrupt "") eq_refl)
    as [_ Hprompt].
  destruct (Hprompt eq_refl eq_refl eq_refl eq_refl) as (Hres & _ & Hcalls).
  by split.
Defined.

(** *** [get_session_token] *)

(** X7. When [get_session_token] fails, the cache files are as before
    and nothing was written. On a cache miss every [Exception] it
    raises is a [UserAuthenticationError], but for the error with which
    boto3 refuses the client, which is built before the [try] and comes
    out as it is; a failure of the remote call comes out with its
    message, and what is not an [Exception] comes out as it is. *)
Theorem get_session_token_failure w sc region mfa_serial mfa_token ignore_cache files
    key :
  sc !! "AccessKeyId" = Some (VStr key) ->
  let r := run (get_session_token w sc region mfa_serial mfa_token ignore_cache)
             files in
  let c := client_config sc (VStr region) in
  (forall e, fst r = Raised e ->
     cache (snd r) = files /\ cache_writes (trace (snd r)) = 0%nat)
  /\ (cache_lib.valid_cache_session w (cached_session files (cache_prefix ++ key))
      && negb ignore_cache = false ->
      forall e, fst r = Raised e -> is_Exception e = true ->
                exn_class_of e = UserAuthenticationError
                \/ client_error w c = Some e)
  /\ (forall c' kwargs e,
        In (EvGetSessionToken c' kwargs) (trace (snd r)) ->
        get_session_token_answer w c' kwargs = inl e ->
        fst r = Raised (if is_Exception e
                        then Exn UserAuthenticationError (exn_str e)
                        else e)).
Proof.
  intros Hkey r c.
  destruct (mfa_outcome_total w mfa_serial mfa_token) as (pre0 & tok0 & Hmfa0).
  destruct (get_session_token_trace w sc region mfa_serial mfa_token ignore_cache
              files key pre0 tok0 Hkey Hmfa0) as (res0 & files0 & tr0 & Hrun0 & Hcase0).
  cbn zeta in Hcase0. fold c in Hcase0.
  split_and!.
  - unfold r. rewrite Hrun0. cbn [fst snd]. state_proj.
    destruct Hmfa0; split_cases Hcase0; intros e' He; try discriminate He;
      by split.
  - intros Hmiss. rewrite Hmiss in Hcase0.
    unfold r. rewrite Hrun0. cbn [fst snd].
    destruct Hmfa0; split_cases Hcase0; intros e' He Hexc; try discriminate He;
      injection He as <-;
      first [ by right | left; first [reflexivity | by eapply reraised_class] ].
  - intros c' kwargs e Hin Ha.
    destruct (get_session_token_call w sc region mfa_serial mfa_token ignore_cache
                files (fst r) (snd r) c' kwargs (surjective_pairing _) Hin)
      as (key' & pre & token & Hkey' & Hmfa & -> & -> & Hc & Hmiss).
    destruct (get_session_token_trace w sc region mfa_serial mfa_token ignore_cache
                files key' pre (Ok token) Hkey' Hmfa)
      as (res & files' & tr & Hrun & Hcase).
    cbn zeta in Hcase. rewrite Hmiss, Hc, Ha in Hcase. destruct Hcase as [-> _].
    unfold r. by rewrite Hrun.
Qed.

Lemma get_session_token_failure_witness :
  let r := run (get_session_token denying_world sample_source "us-east-1"
                  None None false) stale_files in
  fst r = Raised (Exn UserAuthenticationError "AccessDenied")
  /\ cache (snd r) = stale_files.
Proof.
  intros r.
  destruct (get_session_token_failure denying_world sample_source "us-east-1"
              None None false stale_files "AKIA_TEST" eq_refl)
    as (Hfail & _ & Hremote).
  assert (Hres : fst r = Raised (Exn UserAuthenticationError "AccessDenied")).
  { apply (Hremote (client_config sample_source (VStr "us-east-1"))
             (get_session_token_kwargs None None)
             (Exn (LibraryError "ClientError") "AccessDenied")).
    - vm_compute. right. right. by left.
    - reflexivity. }
  split; [exact Hres |]. by destruct (Hfail _ Hres).
Defined.

(** X8. On a cache hit [get_session_token] reads the cache and, whatever
    the MFA arguments, does not prompt, call the service or write; when
    it returns, it returns the entry, and all it did was to read the
    cache, log, and print the cached expiration in local time, as
    [strftime] of the platform writes it for [time_format]. *)
Theorem get_session_token_cache_hit_trace w sc region mfa_serial mfa_token key d
    files :
  sc !! "AccessKeyId" = Some (VStr key) ->
  files !! (cache_prefix ++ key) = Some (Serialized d) ->
  cache_lib.valid_cache_session w (VDict d) = true ->
  let r := run (get_session_token w sc region mfa_serial mfa_token false) files in
  cache (snd r) = files
  /\ cache_reads (trace (snd r)) = 1%nat
  /\ prompts (trace (snd r)) = 0%nat
  /\ remote_calls (trace (snd r)) = 0%nat
  /\ cache_writes (trace (snd r)) = 0%nat
  /\ (forall v, fst r = Ok v ->
        v = VDict d
        /\ exists expiration,
             d !! "Expiration" = Some (VDatetime expiration)
             /\ trace (snd r)
                = [EvCacheRead (cache_prefix ++ key);
                   EvLog "Using cache session";
                   EvPrint (Fore_GREEN ++ "Session token will expire at " ++
                            strftime_answer w time_format
                              (Datetime (dt_instant expiration)
                                 (tzlocal w (dt_instant expiration))))]).
Proof.
  intros Hkey Hfile Hvalid r.
  destruct (mfa_outcome_total w mfa_serial mfa_token) as (pre & tok & Hmfa).
  destruct (get_session_token_trace w sc region mfa_serial mfa_token false
              files key pre tok Hkey Hmfa) as (res & files' & tr & Hrun & Hcase).
  assert (Hcached : cached_session files (cache_prefix ++ key) = VDict d)
    by (unfold cached_session; by rewrite Hfile).
  rewrite Hcached, Hvalid in Hcase.
  destruct Hcase as (d' & expiration & [= <-] & He & -> & -> & ->).
  unfold r. rewrite Hrun. cbn [fst snd]. state_proj.
  split_and!; [done.. |].
  intros v [= <-]. split; [done |]. by exists expiration.
Qed.

Lemma get_session_token_cache_hit_trace_witness :
  let r := run (get_session_token interrupted_world sample_source "eu-west-1"
                  (Some "arn:aws:iam::1:mfa/u") None false) sample_files in
  fst r = Ok (VDict sample_cached)
  /\ prompts (trace (snd r)) = 0%nat
  /\ remote_calls (trace (snd r)) = 0%nat
  /\ trace (snd r)
     = [EvCacheRead "aws-credentials-AKIA_TEST";
        EvLog "Using cache session";
        EvPrint (Fore_GREEN ++ "Session token will expire at 2023-11-14 23:28:20")].
Proof.
  intros r.
  destruct (get_session_token_cache_hit_trace interrupted_world sample_source
              "eu-west-1" (Some "arn:aws:iam::1:mfa/u") None "AKIA_TEST" sample_cached
              sample_files)
    as (_ & _ & Hprompts & Hcalls & _ & Hres); [by vm_compute.. |].
  destruct (Hres (VDict sample_cached)) as (_ & expiration & Hexp & Htrace);
    [by vm_compute |].
  split_and!; [by vm_compute | exact Hprompts | exact Hcalls |].
  assert (expiration = Datetime 1700000900000000 0) as ->
    by (vm_compute in Hexp; by injection Hexp as <-).
  exact Htrace.
Defined.

(** X9. On a cache miss with an MFA serial and no token,
    [get_session_token] prompts once, right before the only remote
    call, and passes the serial and what the prompt returned: so for
    every remote call found in the trace, and, when boto3 builds the
    client, for every run; when the prompt raises the service is not
    called; with a token it does not prompt. When boto3 refuses the
    client, which is built first, there is neither a prompt nor a
    call. *)
Theorem get_session_token_prompts_once w sc region mfa_serial mfa_token ignore_cache
    files key :
  sc !! "AccessKeyId" = Some (VStr key) ->
  ignore_cache = true
  \/ (forall d, files !! (cache_prefix ++ key) = Some (Serialized d) ->
                cache_lib.valid_cache_session w (VDict d) = false) ->
  truthy (of_str mfa_serial) = true ->
  let st' := snd (run (get_session_token w sc region mfa_serial mfa_token
                         ignore_cache) files) in
  let c := client_config sc (VStr region) in
  (truthy (of_str mfa_token) = false ->
   (forall c' kwargs,
      In (EvGetSessionToken c' kwargs) (trace st') ->
      exists before token after,
        trace st' = (before ++ EvPrompt :: EvGetSessionToken c' kwargs :: after)%list
        /\ prompts before = 0%nat /\ remote_calls before = 0%nat
        /\ prompts after = 0%nat /\ remote_calls after = 0%nat
        /\ get_mfa_token_answer w = inr token
        /\ kwargs !! "SerialNumber" = Some (of_str mfa_serial)
        /\ kwargs !! "TokenCode" = Some (VStr token))
   /\ (client_error w c = None ->
       prompts (trace st') = 1%nat
       /\ (forall token,
             get_mfa_token_answer w = inr token ->
             exists before kwargs after,
               trace st'
               = (before ++ EvPrompt :: EvGetSessionToken c kwargs :: after)%list
               /\ remote_calls before = 0%nat
               /\ remote_calls after = 0%nat
               /\ kwargs !! "SerialNumber" = Some (of_str mfa_serial)
               /\ kwargs !! "TokenCode" = Some (VStr token))
       /\ (forall e, get_mfa_token_answer w = inl e ->
                     remote_calls (trace st') = 0%nat))
   /\ (forall e, client_error w c = Some e ->
                 prompts (trace st') = 0%nat /\ remote_calls (trace st') = 0%nat))
  /\ (truthy (of_str mfa_token) = true -> prompts (trace st') = 0%nat).
Proof.
  intros Hkey Hmiss Hserial.
  destruct (mfa_outcome_total w mfa_serial mfa_token) as (pre & tok & Hmfa).
  destruct (get_session_token_trace w sc region mfa_serial mfa_token ignore_cache
              files key pre tok Hkey Hmfa) as (res & files' & tr & Hrun & Hcase).
  cbn zeta. rewrite Hrun. cbn [snd]. state_proj.
  rewrite (cache_miss _ _ _ _ Hmiss) in Hcase. cbn zeta in Hcase.
  destruct Hmfa as [Hs | Hs Ht | token Hs Ht Ha | e Hs Ht Ha];
    [by rewrite Hserial in Hs | | |].
  - split; [by rewrite Ht |]. intros _. split_cases Hcase; count_events.
  - split; [| by rewrite Ht]. intros _.
    assert (Hkw : get_session_token_kwargs mfa_serial (Some (VStr token))
                    !! "SerialNumber" = Some (of_str mfa_serial)
                  /\ get_session_token_kwargs mfa_serial (Some (VStr token))
                       !! "TokenCode" = Some (VStr token)).
    { unfold get_session_token_kwargs. split.
      - rewrite lookup_insert_ne by done. apply lookup_insert_eq.
      - apply lookup_insert_eq. }
    destruct Hkw as [Hk1 Hk2].
    assert (Hwrite : forall c' kwargs name session,
              ~ In (EvGetSessionToken c' kwargs) (write_events w name session)).
    { intros c' kwargs name session Hin.
      by apply (quiet_events _ _ (write_events_remote_calls w name session)) in Hin. }
    split_and!.
    + intros c' kwargs Hin. destruct Hin as [Hin | Hin]; [done |].
      split_cases Hcase;
        repeat (first [ apply in_app_iff in Hin as [Hin | Hin]
                      | by apply Hwrite in Hin
                      | destruct Hin as [Hin | Hin] ]);
        try done; injection Hin as <- <-; eexists [_; _], token, _;
        (split; [reflexivity |]); split_and!; try done; count_events.
    + intros Hc. rewrite Hc in Hcase.
      split_cases Hcase;
        (split_and!;
         [ count_events
         | intros token' Htoken'; rewrite Ha in Htoken'; injection Htoken' as <-;
           eexists [_; _], _, _; split; [reflexivity |];
           split_and!; try done; count_events
         | intros e' He'; by rewrite Ha in He' ]).
    + intros e Hc. rewrite Hc in Hcase. by destruct Hcase as (_ & _ & ->).
  - split; [| by rewrite Ht]. intros _.
    split_and!.
    + intros c' kwargs Hin. destruct Hin as [Hin | Hin]; [done |].
      split_cases Hcase; repeat destruct Hin as [Hin | Hin]; done.
    + intros Hc. rewrite Hc in Hcase.
      destruct Hcase as (_ & _ & ->). split_and!; [done | | done].
      intros token Htoken. by rewrite Ha in Htoken.
    + intros e' Hc. rewrite Hc in Hcase. by destruct Hcase as (_ & _ & ->).
Qed.

Lemma get_session_token_prompts_once_witness :
  let st' := snd (run (get_session_token sample_world sample_source "us-east-1"
                         (Some "arn:aws:iam::1:mfa/u") None false) stale_files) in
  prompts (trace st') = 1%nat
  /\ exists before kwargs after,
       trace st'
       = (before ++
          EvPrompt ::
          EvGetSessionToken (client_config sample_source (VStr "us-east-1")) kwargs ::
          after)%list
       /\ remote_calls before = 0%nat
       /\ remote_calls after = 0%nat
       /\ kwargs !! "SerialNumber" = Some (VStr "arn:aws:iam::1:mfa/u")
       /\ kwargs !! "TokenCode" = Some (VStr "123456").
Proof.
  intros st'.
  destruct (get_session_token_prompts_once sample_world sample_source "us-east-1"
              (Some "arn:aws:iam::1:mfa/u") None false stale_files "AKIA_TEST")
    as [Hprompt _].
  - reflexivity.
  - right. intros d Hd. vm_compute in Hd. injection Hd as <-. by vm_compute.
  - reflexivity.
  - destruct (Hprompt eq_refl) as (_ & Hbuilt & _).
    destruct (Hbuilt eq_refl) as (Hone & Htoken & _).
    split; [exact Hone | exact (Htoken "123456" eq_refl)].
Defined.



(** X11. The test on the expiration before the last print of
    [get_session_token] never fails: whenever the remote call answered
    with credentials and the call returns, the run ends by printing
    their expiration in local time, as [strftime] of the platform
    writes it for [time_format]. *)
Theorem get_session_token_always_notifies w sc region mfa_serial mfa_token
    ignore_cache files c kwargs response creds expiration v :
  let r := run (get_session_token w sc region mfa_serial mfa_token ignore_cache)
             files in
  In (EvGetSessionToken c kwargs) (trace (snd r)) ->
  get_session_token_answer w c kwargs = inr (VDict response) ->
  response !! "Credentials" = Some (VDict creds) ->
  creds !! "Expiration" = Some (VDatetime expiration) ->
  fst r = Ok v ->
  exists before,
    trace (snd r)
    = (before ++
       [EvPrint (Fore_GREEN ++ "Session token will expire at " ++
                 strftime_answer w time_format
                   (Datetime (dt_instant expiration)
                      (tzlocal w (dt_instant expiration))))])%list.
Proof.
  intros r Hin Ha Hc He _.
  destruct (get_session_token_fresh w sc region mfa_serial mfa_token ignore_cache
              files (fst r) (snd r) c kwargs (VDict response) creds expiration
              (surjective_pairing _) Hin Ha (credentials_of_Some _ _ _ _ eq_refl Hc He))
    as (key & pre & _ & _ & _ & _ & ->).
  eexists (EvCacheRead _ :: EvLog _ :: pre ++ [_; _] ++ write_events w _ _)%list.
  cbn [app]. by rewrite <- !app_assoc.
Qed.

Lemma get_session_token_always_notifies_witness :
  exists before,
    trace (snd (run (get_session_token read_only_world sample_source "us-east-1"
                       None None false) ∅))
    = (before ++
       [EvPrint (Fore_GREEN ++ "Session token will expire at 2023-11-15 00:13:20")])%list.
Proof.
  apply (get_session_token_always_notifies read_only_world sample_source "us-east-1"
           None None false ∅ (client_config sample_source (VStr "us-east-1"))
           (get_session_token_kwargs None None)
           (<["Credentials" := VDict sample_credentials]> ∅)
           sample_credentials sample_expiration
           (VDict (localized read_only_world "us-east-1" sample_credentials
                     sample_expiration))).
  - vm_compute. right. right. by left.
  - reflexivity.
  - by vm_compute.
  - by vm_compute.
  - by vm_compute.
Defined.

(** X12. An [AccessKeyId] that is present but is not a string (an
    explicit [None], a number) fails like a missing one: a [TypeError]
    from the concatenation, before anything is read, asked or called. *)
Theorem get_session_token_non_string_AccessKeyId w sc region mfa_serial mfa_token
    ignore_cache files v :
  sc !! "AccessKeyId" = Some v ->
  (forall s, v <> VStr s) ->
  exists e,
    run (get_session_token w sc region mfa_serial mfa_token ignore_cache) files
    = (Raised e, State files [])
    /\ exn_class_of e = TypeError.
Proof.
  intros Hv Hstr.
  apply get_session_token_key_error. intros key Hkey.
  rewrite Hv in Hkey. injection Hkey as ->. by apply (Hstr key).
Qed.

Lemma get_session_token_non_string_AccessKeyId_witness :
  exists e,
    run (get_session_token sample_world (<["AccessKeyId" := VNone]> sample_source)
           "us-east-1" None None true) sample_files
    = (Raised e, State sample_files [])
    /\ exn_class_of e = TypeError.
Proof.
  apply (get_session_token_non_string_AccessKeyId sample_world
           (<["AccessKeyId" := VNone]> sample_source) "us-east-1" None None true
           sample_files VNone).
  - by vm_compute.
  - intros s Hs. discriminate Hs.
Defined.

(** *** [get_account_id] *)

(** X13. [get_account_id] leaves the cache alone and makes one remote
    call when boto3 builds the client, none when boto3 refuses it; it
    returns what the response holds under ['Account'], whatever that
    is, and ['Unavailable'] for a response that is not a dict and for a
    client that is refused. *)
Theorem get_account_id_returns_Account w credentials files :
  let r := run (get_account_id w credentials) files in
  let c :=
    client_config credentials
      (dict_get_default credentials "Region" (VStr "us-east-1")) in
  cache (snd r) = files
  /\ trace (snd r)
     = match client_error w c with
       | None => [EvGetCallerIdentity c]
       | Some _ => []
       end
  /\ (forall c' response account,
        In (EvGetCallerIdentity c') (trace (snd r)) ->
        get_caller_identity_answer w c' = inr (VDict response) ->
        response !! "Account" = Some account ->
        fst r = Ok account)
  /\ (forall c' v,
        In (EvGetCallerIdentity c') (trace (snd r)) ->
        get_caller_identity_answer w c' = inr v ->
        (forall response, v <> VDict response) ->
        fst r = Ok (VStr "Unavailable"))
  /\ (forall e, client_error w c = Some e -> fst r = Ok (VStr "Unavailable")).
Proof.
  intros r c. unfold r. rewrite get_account_id_run. cbn zeta. fold c.
  destruct (client_error w c) as [e0 |]; cbn [fst snd]; state_proj;
    (split_and!; [done | done | | | done]).
  - by intros c' response account [].
  - by intros c' v [].
  - intros c' response account [[= <-] | []] Ha Haccount.
    rewrite Ha. unfold dict_get_default. by rewrite Haccount.
  - intros c' v [[= <-] | []] Ha Hv. rewrite Ha.
    destruct v as [| | | | response]; try done. by destruct (Hv response).
Qed.

Lemma get_account_id_returns_Account_witness :
  fst (run (get_account_id sample_world sample_source) sample_files)
  = Ok (VStr "123456789012").
Proof.
  destruct (get_account_id_returns_Account sample_world sample_source sample_files)
    as (_ & _ & Haccount & _).
  apply (Haccount (client_config sample_source (VStr "us-east-1"))
           (<["Account" := VStr "123456789012"]> ∅)).
  - vm_compute. by left.
  - reflexivity.
  - by vm_compute.
Defined.


(** *** The functions together *)

(** X14. The credentials [assume_role] returns carry the region of the
    request: [get_account_id] on them builds its client for that
    region, with the keys and token they hold, and, when boto3 builds
    it, calls the service through it. *)
Theorem get_account_id_after_assume_role w sc role_arn session_name region
    external_id role_duration mfa_serial mfa_token files session :
  fst (run (assume_role w sc role_arn session_name region external_id role_duration
              mfa_serial mfa_token) files) = Ok (VDict session) ->
  forall w' files',
    let c :=
      StsClient (dict_get session "AccessKeyId")
        (dict_get session "SecretAccessKey")
        (dict_get session "SessionToken") (VStr region) in
    trace (snd (run (get_account_id w' session) files'))
    = match client_error w' c with
      | None => [EvGetCallerIdentity c]
      | Some _ => []
      end.
Proof.
  intros Hres w' files' c.
  assert (Hregion : session !! "Region" = Some (VStr region)).
  { destruct (mfa_outcome_total w mfa_serial mfa_token) as (pre & tok & Hmfa).
    destruct (assume_role_trace w sc role_arn session_name region external_id
                role_duration mfa_serial mfa_token files pre tok Hmfa)
      as (res & tr & Hrun & Hcase).
    rewrite Hrun in Hres. cbn [fst] in Hres. subst res.
    split_cases Hcase;
      match goal with
      | H : Ok _ = Raised _ |- _ => discriminate H
      | H : Ok (VDict _) = Ok (VDict _) |- _ => injection H as ->
      end.
    apply localized_Region. }
  rewrite get_account_id_run. cbn zeta.
  assert (Hc : client_config session
                 (dict_get_default session "Region" (VStr "us-east-1")) = c).
  { unfold c, client_config, dict_get_default. by rewrite Hregion. }
  rewrite Hc. by destruct (client_error w' c).
Qed.

Lemma get_account_id_after_assume_role_witness :
  trace (snd (run (get_account_id sample_world
                     (localized sample_world "eu-west-1" sample_credentials
                        sample_expiration)) ∅))
  = [EvGetCallerIdentity
       (StsClient (VStr "ASIA_FRESH") (VStr "fresh-secret") (VStr "fresh-token")
          (VStr "eu-west-1"))].
Proof.
  apply (get_account_id_after_assume_role sample_world sample_source
           "arn:aws:iam::1:role/r" "session" "eu-west-1" None None None None ∅
           (localized sample_world "eu-west-1" sample_credentials sample_expiration)).
  by vm_compute.
Defined.

(** X15. The cache key does not hold the region: a session fetched for
    one region and still valid is what a later call for another region
    returns, with the region of the first call. *)
Theorem get_session_token_cache_ignores_region w1 w2 sc region1 serial1 token1 ignore1
    region2 serial2 token2 files c kwargs session :
  let first := run (get_session_token w1 sc region1 serial1 token1 ignore1) files in
  fst first = Ok (VDict session) ->
  In (EvGetSessionToken c kwargs) (trace (snd first)) ->
  (forall name, disk_write_fails w1 name = false) ->
  cache_lib.valid_cache_session w2 (VDict session) = true ->
  let second :=
    run (get_session_token w2 sc region2 serial2 token2 false) (cache (snd first)) in
  fst second = Ok (VDict session)
  /\ session !! "Region" = Some (VStr region1)
  /\ remote_calls (trace (snd second)) = 0%nat.
Proof.
  intros first Hres Hin Hdisk Hvalid second.
  destruct (get_session_token_call w1 sc region1 serial1 token1 ignore1
              files (fst first) (snd first) c kwargs (surjective_pairing _) Hin)
    as (key & pre & token & Hkey & Hmfa & -> & -> & Hc & Hmiss).
  destruct (get_session_token_trace w1 sc region1 serial1 token1 ignore1
              files key pre (Ok token) Hkey Hmfa)
    as (res & files' & tr & Hrun & Hcase).
  subst second first. rewrite Hrun in *. cbn [fst snd] in *. state_proj. subst res.
  cbn zeta in Hcase. rewrite Hmiss, Hc in Hcase.
  destruct (get_session_token_answer w1 _ _) as [e | response];
    [destruct Hcase as [Hr _]; discriminate Hr |].
  destruct (credentials_of response) as [[creds expiration]|];
    [| destruct Hcase as (e & _ & Hr & _); discriminate Hr].
  destruct Hcase as ([= ->] & -> & _).
  unfold cache_after_write. rewrite Hdisk.
  destruct (get_session_token_cached w2 sc region2 serial2 token2 key
              (<[cache_prefix ++ key := Serialized (localized w1 region1 creds expiration)]>
                 files)
              (VDict (localized w1 region1 creds expiration)) Hkey
              (cached_session_insert _ _ _) Hvalid) as (tr2 & -> & Hcalls).
  cbn [fst snd]. state_proj. split_and!; [done | apply localized_Region | done].
Qed.

Lemma get_session_token_cache_ignores_region_witness :
  let first := run (get_session_token sample_world sample_source "us-east-1"
                      None None false) ∅ in
  let second := run (get_session_token sample_world sample_source "eu-west-1"
                       None None false) (cache (snd first)) in
  exists session,
    fst second = Ok (VDict session)
    /\ session !! "Region" = Some (VStr "us-east-1")
    /\ remote_calls (trace (snd second)) = 0%nat.
Proof.
  intros first second.
  exists (localized sample_world "us-east-1" sample_credentials sample_expiration).
  apply (get_session_token_cache_ignores_region sample_world sample_world
           sample_source "us-east-1" None None false "eu-west-1" None None ∅
           (client_config sample_source (VStr "us-east-1"))
           (get_session_token_kwargs None None)).
  - by vm_compute.
  - vm_compute. right. right. by left.
  - reflexivity.
  - by vm_compute.
Defined.

(** X16. The session [get_session_token] fetches can be the source of
    [assume_role]: the remote call is then made with the access key,
    the secret and the session token the service had returned, for the
    region of the [assume_role] request. *)
Theorem assume_role_with_session_token w sc region mfa_serial mfa_token ignore_cache
    files c kwargs response creds expiration :
  let r := run (get_session_token w sc region mfa_serial mfa_token ignore_cache)
             files in
  In (EvGetSessionToken c kwargs) (trace (snd r)) ->
  get_session_token_answer w c kwargs = inr (VDict response) ->
  response !! "Credentials" = Some (VDict creds) ->
  creds !! "Expiration" = Some (VDatetime expiration) ->
  exists session,
    fst r = Ok (VDict session)
    /\ forall w' role_arn session_name region' external_id role_duration
              mfa_serial' mfa_token' files' c' kwargs',
         In (EvAssumeRole c' kwargs')
           (trace (snd (run (assume_role w' session role_arn session_name region'
                               external_id role_duration mfa_serial' mfa_token')
                          files'))) ->
         c' = StsClient (dict_get creds "AccessKeyId")
                (dict_get creds "SecretAccessKey")
                (dict_get creds "SessionToken") (VStr region').
Proof.
  intros r Hin Ha Hc He.
  destruct (get_session_token_fresh w sc region mfa_serial mfa_token ignore_cache
              files (fst r) (snd r) c kwargs (VDict response) creds expiration
              (surjective_pairing _) Hin Ha (credentials_of_Some _ _ _ _ eq_refl Hc He))
    as (key & pre & _ & _ & Hres & _).
  exists (localized w region creds expiration). split; [exact Hres |].
  intros w' role_arn session_name region' external_id role_duration mfa_serial'
    mfa_token' files' c' kwargs' Hin'.
  apply assume_role_call in Hin' as (_ & _ & _ & -> & _).
  unfold client_config, dict_get, localized.
  by rewrite !lookup_insert_ne.
Qed.

Lemma assume_role_with_session_token_witness :
  exists session,
    fst (run (get_session_token sample_world sample_source "us-east-1"
                None None true) sample_files) = Ok (VDict session)
    /\ trace (snd (run (assume_role sample_world session "arn:aws:iam::1:role/r"
                          "session" "eu-west-1" None None None None) ∅)) !! 2%nat
       = Some (EvAssumeRole
                 (StsClient (VStr "ASIA_FRESH") (VStr "fresh-secret")
                    (VStr "fresh-token") (VStr "eu-west-1"))
                 (assume_role_kwargs "arn:aws:iam::1:role/r" "session" None None
                    None None)).
Proof.
  destruct (assume_role_with_session_token sample_world sample_source "us-east-1"
              None None true sample_files
              (client_config sample_source (VStr "us-east-1"))
              (get_session_token_kwargs None None)
              (<["Credentials" := VDict sample_credentials]> ∅)
              sample_credentials sample_expiration)
    as (session & Hres & _).
  - vm_compute. right. right. by left.
  - reflexivity.
  - by vm_compute.
  - by vm_compute.
  - exists session. split; [exact Hres |].
    assert (session = localized sample_world "us-east-1" sample_credentials
                        sample_expiration) as ->.
    { vm_compute in Hres. by injection Hres as <-. }
    by vm_compute.
Defined.
